(** * ipyplotly: the figure widget's synchronisation logic, verified

    A shallow embedding of the kernel-side runtime of ipyplotly
    ([ipyplotly/basedatatypes.py]) and of the validator code generator
    ([codegen/validators.py]), with the properties of the specification
    stated and proved over it.

    Python objects are embedded as follows.
    - Plain data (what lives in [_data], [_layout], patches and messages) is
      a tree of type [value]: [None], traitlets' [Undefined], integers,
      strings, lists and dicts.  A dict is a finite map ([gmap]), so that
      equality of values is Python's [==] on this fragment: order of keys
      is irrelevant.  Floats, booleans and numpy arrays are not part of the
      fragment.
    - A dict whose iteration order the code depends on (a patch, an
      outgoing message, the batch accumulators) is an insertion-ordered
      association list ([odict]).
    - Trace objects are references into a store ([objid -> TraceObj]); the
      figure is a record threaded through a state-and-exception monad.
    - Containers stored in the mirrors are values, not references: the
      development covers figures whose mirrors share no container object,
      which is the deep-copy invariant the figure maintains. *)

From stdpp Require Import gmap strings list fin_maps sorting.
From Stdlib Require Import ZArith Ascii.

#[local] Set Warnings "-register-all".
#[local] Open Scope Z_scope.
#[local] Open Scope string_scope.
#[local] Open Scope list_scope.

(** ** Python data *)

(** A dict key or a path segment: a string or an integer. *)
Inductive pkey :=
| KStr (s : string)
| KInt (z : Z).

#[global] Instance pkey_eq_dec : EqDecision pkey.
Proof. solve_decision. Defined.

#[global] Instance pkey_countable : Countable pkey.
Proof.
  refine (inj_countable'
            (fun k => match k with KStr s => inl s | KInt z => inr z end)
            (fun x => match x with inl s => KStr s | inr z => KInt z end) _).
  by intros [].
Defined.

Inductive value :=
| VUndefined
| VNone
| VInt (z : Z)
| VStr (s : string)
| VList (l : list value)
| VDict (m : gmap pkey value).

Abbreviation pdict := (gmap pkey value).

#[global] Instance value_inhabited : Inhabited value := populate VNone.

Fixpoint list_eqb {A} (eqb : A -> A -> bool) (l1 l2 : list A) : bool :=
  match l1, l2 with
  | [], [] => true
  | x :: l1, y :: l2 => eqb x y && list_eqb eqb l1 l2
  | _, _ => false
  end.

(** Python's [==] on values: structural on scalars and lists, and on dicts
    "same keys, equal values". *)
Fixpoint value_eqb (a b : value) {struct a} : bool :=
  match a, b with
  | VUndefined, VUndefined => true
  | VNone, VNone => true
  | VInt x, VInt y => bool_decide (x = y)
  | VStr x, VStr y => bool_decide (x = y)
  | VList l1, VList l2 => list_eqb value_eqb l1 l2
  | VDict m1, VDict m2 =>
      bool_decide (size m1 = size m2) &&
      map_fold (fun k v (acc : bool) =>
                  acc && match m2 !! k with
                         | Some w => value_eqb v w
                         | None => false
                         end) true m1
  | _, _ => false
  end.

Fixpoint value_size (a : value) : nat :=
  match a with
  | VList l => S (foldr (fun v n => (value_size v + n)%nat) 0%nat l)
  | VDict m => S (map_fold (fun _ v n => (value_size v + n)%nat) 0%nat m)
  | _ => 1%nat
  end.

(** [BasePlotlyType._vals_equal]: numpy arrays apart, it is [v1 == v2]. *)
Definition _vals_equal (v1 v2 : value) : bool := value_eqb v1 v2.

Definition is_list (v : value) : bool :=
  match v with VList _ => true | _ => false end.

Definition is_dict (v : value) : bool :=
  match v with VDict _ => true | _ => false end.

Definition is_int_key (k : pkey) : bool :=
  match k with KInt _ => true | KStr _ => false end.

(** [hash(v)] succeeds: lists and dicts are unhashable. *)
Definition hashable (v : value) : bool :=
  match v with VList _ | VDict _ => false | _ => true end.

(** ** Exceptions *)

(** The messages of the exceptions the library raises itself. *)
Inductive errmsg :=
| InvalidTraceUids (invalid_uids : list value)
| DuplicateTraceUids (duplicate_uids : list value)
| TraceIndexOutOfRange (trace_ind : Z)
| RestylingObjectsNotSupported
| TracesInBatchContext
| UnrecognizedChild
| SubplotSuffix (prop : string)
| ExpectedRootTraceNode (dir_str : string).

Inductive pyexc :=
| ValueError (m : errmsg)         (* raise ValueError(...) in the library *)
| TypeError (m : errmsg)          (* raise TypeError(...) in the library *)
| PyTypeError                     (* raised by the interpreter *)
| PyKeyError (k : pkey)
| PyIndexError
| PyZeroDivisionError
| PyAttributeError
| PyValueError                    (* e.g. [list.index] of an absent item *)
| PyRecursionError
| ValidationRejected.             (* raised by a validator *)

(** The specification's error kind InvalidInput: an exception the library
    raises on purpose about its input. *)
Definition InvalidInput (e : pyexc) : Prop :=
  match e with
  | ValueError _ | TypeError _ => True
  | _ => False
  end.

Inductive result (A : Type) :=
| Ok (a : A)
| Raise (e : pyexc).
Arguments Ok {A} a.
Arguments Raise {A} e.


(** ** Python's indexing *)

(** The position a Python index denotes in a sequence of length [len]. *)
Definition py_norm_index (len : nat) (z : Z) : option nat :=
  if bool_decide (0 <= z < Z.of_nat len) then Some (Z.to_nat z)
  else if bool_decide (- Z.of_nat len <= z < 0) then Some (Z.to_nat (Z.of_nat len + z))
  else None.

Definition string_of_ascii (c : Ascii.ascii) : string := String c EmptyString.

(** [container[k]]. *)
Definition py_getitem (container : value) (k : pkey) : result value :=
  match container, k with
  | VList l, KInt z =>
      match py_norm_index (length l) z with
      | Some n => match l !! n with Some v => Ok v | None => Raise PyIndexError end
      | None => Raise PyIndexError
      end
  | VList _, KStr _ => Raise PyTypeError
  | VDict m, _ =>
      match m !! k with Some v => Ok v | None => Raise (PyKeyError k) end
  | VStr s, KInt z =>
      match py_norm_index (String.length s) z with
      | Some n => match String.get n s with
                  | Some c => Ok (VStr (string_of_ascii c))
                  | None => Raise PyIndexError
                  end
      | None => Raise PyIndexError
      end
  | _, _ => Raise PyTypeError
  end.

(** The container after the object at [container[k]] has been mutated in
    place into [child]: the same container with that position updated.
    Strings are immutable, so nothing reached through one changes. *)
Definition py_store_child (container : value) (k : pkey) (child : value) : value :=
  match container, k with
  | VList l, KInt z =>
      match py_norm_index (length l) z with
      | Some n => VList (<[n := child]> l)
      | None => container
      end
  | VDict m, _ => VDict (<[k := child]> m)
  | _, _ => container
  end.

(** ** Insertion-ordered dicts *)

Section odict.
Context {K V : Type} `{EqDecision K}.

Fixpoint od_get (k : K) (d : list (K * V)) : option V :=
  match d with
  | [] => None
  | (k', v) :: d => if decide (k = k') then Some v else od_get k d
  end.

(** [d[k] = v]: in place when the key is there, at the end otherwise. *)
Fixpoint od_set (k : K) (v : V) (d : list (K * V)) : list (K * V) :=
  match d with
  | [] => [(k, v)]
  | (k', v') :: d =>
      if decide (k = k') then (k', v) :: d else (k', v') :: od_set k v d
  end.

Definition od_keys (d : list (K * V)) : list K := d.*1.

End odict.

Abbreviation odict := (list (string * value)).

(** ** Key paths: [BaseFigureWidget._str_to_dict_path]

    Strings are read as sequences of code points below 256. *)

Definition is_digit (c : Ascii.ascii) : bool :=
  let n := Ascii.nat_of_ascii c in (48 <=? n)%nat && (n <=? 57)%nat.

Definition digit_val (c : Ascii.ascii) : Z := Z.of_nat (Ascii.nat_of_ascii c) - 48.

(** The characters [int()] strips: Python's white space. *)
Definition is_space (c : Ascii.ascii) : bool :=
  let n := Ascii.nat_of_ascii c in
  ((9 <=? n)%nat && (n <=? 13)%nat) || ((28 <=? n)%nat && (n <=? 32)%nat)
  || (n =? 133)%nat || (n =? 160)%nat.

Fixpoint drop_spaces (l : list Ascii.ascii) : list Ascii.ascii :=
  match l with
  | c :: l' => if is_space c then drop_spaces l' else l
  | [] => []
  end.

Definition strip (l : list Ascii.ascii) : list Ascii.ascii :=
  rev (drop_spaces (rev (drop_spaces l))).

(** Decimal digits with single underscores between them, read from the
    left with the value so far in [acc]; [prev_digit] tells whether the
    previous character was a digit. *)
Fixpoint int_digits (l : list Ascii.ascii) (acc : Z) (prev_digit : bool) : option Z :=
  match l with
  | [] => if prev_digit then Some acc else None
  | c :: l' =>
      if is_digit c then int_digits l' (10 * acc + digit_val c) true
      else if Ascii.eqb c "_"%char && prev_digit then int_digits l' acc false
      else None
  end.

(** [int(s)] on a string, [None] for the [ValueError]. *)
Definition py_int (s : string) : option Z :=
  match strip (String.list_ascii_of_string s) with
  | "-"%char :: l => Z.opp <$> int_digits l 0 false
  | "+"%char :: l => int_digits l 0 false
  | l => int_digits l 0 false
  end.

(** [s.split(sep)] for a one-character separator. *)
Fixpoint split_on (sep : Ascii.ascii) (s : string) : list string :=
  match s with
  | EmptyString => [EmptyString]
  | String c s' =>
      if Ascii.eqb c sep then EmptyString :: split_on sep s'
      else match split_on sep s' with
           | h :: t => String c h :: t
           | [] => [String c EmptyString]
           end
  end.

Fixpoint span_digits (l : list Ascii.ascii) : list Ascii.ascii * list Ascii.ascii :=
  match l with
  | c :: l' =>
      if is_digit c then let '(ds, r) := span_digits l' in (c :: ds, r)
      else ([], l)
  | [] => ([], [])
  end.

(** [bracket_re.fullmatch(key)], for the pattern "anything, an opening
    bracket, one or more digits, a closing bracket": the two groups.  The
    dot of the pattern does not match a newline. *)
Definition bracket_re_fullmatch (key : string) : option (string * string) :=
  match rev (String.list_ascii_of_string key) with
  | "]"%char :: r =>
      match span_digits r with
      | (d :: ds, "["%char :: g1) =>
          if existsb (Ascii.eqb "010"%char) g1 then None
          else Some (String.string_of_list_ascii (rev g1),
                     String.string_of_list_ascii (rev (d :: ds)))
      | _ => None
      end
  | _ => None
  end.

Definition to_pkey (s : string) : pkey :=
  match py_int s with
  | Some z => KInt z
  | None => KStr s
  end.

Definition _str_to_dict_path (raw_key : string) : list pkey :=
  let key_path := split_on "." raw_key in
  let key_path2 :=
    flat_map (fun key => match bracket_re_fullmatch key with
                         | Some (g1, g2) => [g1; g2]
                         | None => [key]
                         end) key_path in
  map to_pkey key_path2.

Example str_to_dict_path_dotted :
  _str_to_dict_path "marker.color" = [KStr "marker"; KStr "color"].
Proof. reflexivity. Qed.

Example str_to_dict_path_bracket :
  _str_to_dict_path "shapes[0].x0" = [KStr "shapes"; KInt 0; KStr "x0"].
Proof. reflexivity. Qed.

Example str_to_dict_path_int :
  _str_to_dict_path "foo.bar.-1" = [KStr "foo"; KStr "bar"; KInt (-1)].
Proof. reflexivity. Qed.

(** ** The restyle patch algorithm on the trace mirror

    [BaseFigureWidget._perform_restyle_dict] walks a key path into the
    dict of a trace, creating the containers it misses, and writes at the
    leaf.  The dicts and lists are mutated in place; here every step
    returns the container as it is afterwards, also when the walk raises
    half-way. *)

(** The first two branches of the loop body over [key_path[:-1]]: extend a
    list up to an integer segment, or give a dict the entry it misses. *)
Definition restyle_vivify (val_parent : value) (key_path_el next_el : pkey) : value :=
  match val_parent, key_path_el with
  | VList l, KInt z =>
      VList (l ++ replicate (Z.to_nat (z + 1) - length l) VNone)
  | VDict m, _ =>
      match m !! key_path_el with
      | Some _ => val_parent
      | None =>
          VDict (<[key_path_el := if is_int_key next_el then VList [] else VDict ∅]> m)
      end
  | _, _ => val_parent
  end.

(** The three-way branch at the leaf; the flag is [any_vals_changed]. *)
Definition restyle_leaf (val_parent : value) (last_key : pkey) (trace_v : value)
  : value * bool :=
  if _vals_equal trace_v VUndefined then (val_parent, false)
  else match trace_v, val_parent with
       | VNone, VDict m =>
           match m !! last_key with
           | Some _ => (VDict (delete last_key m), true)
           | None => (val_parent, false)
           end
       | VNone, _ => (val_parent, false)
       | _, VDict m =>
           match m !! last_key with
           | Some old =>
               if _vals_equal old trace_v then (val_parent, false)
               else (VDict (<[last_key := trace_v]> m), true)
           | None => (VDict (<[last_key := trace_v]> m), true)
           end
       | _, _ => (val_parent, false)
       end.

(** The walk from [val_parent] along [key_path], then the leaf.  [trace_v]
    is [v[i % len(v)]], which is evaluated after the walk and raises on an
    empty list. *)
Fixpoint restyle_path (val_parent : value) (key_path : list pkey)
    (trace_v : result value) : value * result bool :=
  match key_path with
  | [] => (val_parent, Raise PyIndexError)
  | [last_key] =>
      match trace_v with
      | Raise e => (val_parent, Raise e)
      | Ok tv => let '(vp, c) := restyle_leaf val_parent last_key tv in (vp, Ok c)
      end
  | key_path_el :: ((next_el :: _) as rest) =>
      let vp := restyle_vivify val_parent key_path_el next_el in
      match py_getitem vp key_path_el with
      | Raise e => (vp, Raise e)
      | Ok child =>
          let '(child', r) := restyle_path child rest trace_v in
          (py_store_child vp key_path_el child', r)
      end
  end.

(** The walk started at the dict of a trace, which stays a dict. *)
Definition restyle_trace (d : pdict) (key_path : list pkey) (trace_v : result value)
  : pdict * result bool :=
  let '(vp, r) := restyle_path (VDict d) key_path trace_v in
  (match vp with VDict d' => d' | _ => d end, r).

(** [v[i % len(v)]] for the list [v]. *)
Definition cyclic_item (v : list value) (i : nat) : result value :=
  match v with
  | [] => Raise PyZeroDivisionError
  | _ => match v !! (i mod length v)%nat with
         | Some x => Ok x
         | None => Raise PyIndexError
         end
  end.

(** [if not isinstance(v, list): v = [v]]. *)
Definition as_list (v : value) : value :=
  if is_list v then v else VList [v].

Definition list_items (v : value) : list value :=
  match v with VList l => l | _ => [] end.

(** The loop over [enumerate(trace_indexes)] for one patch entry, from
    position [i] on; [restyle_msg_vs] and [any_vals_changed] are the
    loop's two accumulators. *)
Fixpoint restyle_traces (key_path : list pkey) (v : list value) (i : nat)
    (trace_indexes : list Z) (data : list pdict)
    (restyle_msg_vs : list value) (any_vals_changed : bool)
  : list pdict * result (list value * bool) :=
  match trace_indexes with
  | [] => (data, Ok (restyle_msg_vs, any_vals_changed))
  | trace_ind :: rest =>
      if bool_decide (trace_ind >= Z.of_nat (length data)) then
        (data, Raise (ValueError (TraceIndexOutOfRange trace_ind)))
      else
        match py_norm_index (length data) trace_ind with
        | None => (data, Raise PyIndexError)
        | Some n =>
            match data !! n with
            | None => (data, Raise PyIndexError)
            | Some d =>
                let trace_v := cyclic_item v i in
                let '(d', r) := restyle_trace d key_path trace_v in
                let data' := <[n := d']> data in
                match trace_v, r with
                | Ok tv, Ok c =>
                    restyle_traces key_path v (S i) rest data'
                      (restyle_msg_vs ++ [tv]) (any_vals_changed || c)
                | Raise e, _ | _, Raise e => (data', Raise e)
                end
            end
        end
  end.

(** [raw_key.startswith('_')]. *)
Definition starts_with_underscore (raw_key : string) : bool :=
  String.prefix "_" raw_key.

(** The loop over [style.items()]; [restyle_data] is the dict built up. *)
Fixpoint restyle_entries (style : odict) (trace_indexes : list Z)
    (data : list pdict) (restyle_data : odict) : list pdict * result odict :=
  match style with
  | [] => (data, Ok restyle_data)
  | (raw_key, v) :: style' =>
      let key_path := _str_to_dict_path raw_key in
      if starts_with_underscore raw_key then
        restyle_entries style' trace_indexes data (od_set raw_key v restyle_data)
      else
        let v := as_list v in
        if is_dict v then
          (data, Raise (ValueError RestylingObjectsNotSupported))
        else
          match restyle_traces key_path (list_items v) 0 trace_indexes data [] false with
          | (data', Raise e) => (data', Raise e)
          | (data', Ok (restyle_msg_vs, any_vals_changed)) =>
              restyle_entries style' trace_indexes data'
                (if any_vals_changed
                 then od_set raw_key (VList restyle_msg_vs) restyle_data
                 else restyle_data)
          end
  end.

(** [_perform_restyle_dict] as a function of [self._data]. *)
Definition perform_restyle_data (style : odict) (trace_indexes : list Z)
    (data : list pdict) : list pdict * result odict :=
  restyle_entries style trace_indexes data [].

(** ** The property tree and the figure *)

Definition objid := nat.

(** A function of the caller, by name. *)
Definition callback := nat.

Inductive parent_ref :=
| FigureRef
| NodeRef (o : objid).

(** What [_compound_props] holds and [_set_compound_prop] returns: [None],
    one node, or a tuple of nodes. *)
Inductive pyref :=
| RNone
| RObj (o : objid)
| RTuple (os : list objid).

Inductive validator_class :=
| XaxisValidator
| YaxisValidator
| GeoValidator
| TernaryValidator
| SceneValidator
| OtherValidator (cls : string).

#[global] Instance validator_class_eq_dec : EqDecision validator_class.
Proof. solve_decision. Defined.

(** A validator instance: its class and the [prop_name] it was built for. *)
Record validator := {
  v_class : validator_class;
  v_prop_name : string;
}.

#[global] Instance validator_eq_dec : EqDecision validator.
Proof. solve_decision. Defined.

(** The state of a [BasePlotlyType] object. *)
Record PlotlyObj := {
  _name : string;
  _parent : option parent_ref;
  _orphan_props : pdict;
  _compound_props : gmap string pyref;
  _validators : gmap string validator;
  _subplotid_props : gmap string pyref;
}.

(** What the figure sends to the front end and what it calls, in order.
    A message is the value written to the [_py2js_*] trait of that name
    (which the code sets back to [None] at once). *)
Inductive effect :=
| Py2js_addTraces (new_traces_data : list pdict)
| Py2js_deleteTraces (delete_inds : list nat) (relayout_msg_id : Z)
| Py2js_moveTraces (current_inds new_inds : list nat)
| Py2js_restyle (style : odict) (trace_indexes : list Z)
| Py2js_relayout (layout : odict)
| Py2js_update (style layout : odict) (trace_indexes : list Z)
| ChangeCallbacksRestyle (style : odict) (trace_indexes : list Z)
| ChangeCallbacksRelayout (layout : odict)
| Called (fn : callback).

Record Figure := {
  _data : list pdict;
  _data_defaults : list pdict;
  _data_objs : list objid;
  _layout : pdict;
  _layout_defaults : pdict;
  _layout_obj : objid;
  _last_relayout_msg_id : Z;
  _last_restyle_msg_id : Z;
  _relayout_in_process : bool;
  _waiting_relayout_callbacks : list callback;
  _restyle_in_process : bool;
  _waiting_restyle_callbacks : list callback;
  _in_batch_mode : bool;
  _batch_style_commands : list (Z * odict);
  _batch_layout_commands : odict;
  store : objid -> PlotlyObj;
  effects : list effect;
}.

(** Assignment to one attribute of the figure. *)
Definition set_data (x : list pdict) (f : Figure) : Figure :=
  {| _data := x; _data_defaults := f.(_data_defaults); _data_objs :=
     f.(_data_objs); _layout := f.(_layout); _layout_defaults :=
     f.(_layout_defaults); _layout_obj := f.(_layout_obj);
     _last_relayout_msg_id := f.(_last_relayout_msg_id);
     _last_restyle_msg_id := f.(_last_restyle_msg_id); _relayout_in_process
     := f.(_relayout_in_process); _waiting_relayout_callbacks :=
     f.(_waiting_relayout_callbacks); _restyle_in_process :=
     f.(_restyle_in_process); _waiting_restyle_callbacks :=
     f.(_waiting_restyle_callbacks); _in_batch_mode := f.(_in_batch_mode);
     _batch_style_commands := f.(_batch_style_commands);
     _batch_layout_commands := f.(_batch_layout_commands); store :=
     f.(store); effects := f.(effects) |}.

Definition set_data_defaults (x : list pdict) (f : Figure) : Figure :=
  {| _data := f.(_data); _data_defaults := x; _data_objs := f.(_data_objs);
     _layout := f.(_layout); _layout_defaults := f.(_layout_defaults);
     _layout_obj := f.(_layout_obj); _last_relayout_msg_id :=
     f.(_last_relayout_msg_id); _last_restyle_msg_id :=
     f.(_last_restyle_msg_id); _relayout_in_process :=
     f.(_relayout_in_process); _waiting_relayout_callbacks :=
     f.(_waiting_relayout_callbacks); _restyle_in_process :=
     f.(_restyle_in_process); _waiting_restyle_callbacks :=
     f.(_waiting_restyle_callbacks); _in_batch_mode := f.(_in_batch_mode);
     _batch_style_commands := f.(_batch_style_commands);
     _batch_layout_commands := f.(_batch_layout_commands); store :=
     f.(store); effects := f.(effects) |}.

Definition set_data_objs (x : list objid) (f : Figure) : Figure :=
  {| _data := f.(_data); _data_defaults := f.(_data_defaults); _data_objs :=
     x; _layout := f.(_layout); _layout_defaults := f.(_layout_defaults);
     _layout_obj := f.(_layout_obj); _last_relayout_msg_id :=
     f.(_last_relayout_msg_id); _last_restyle_msg_id :=
     f.(_last_restyle_msg_id); _relayout_in_process :=
     f.(_relayout_in_process); _waiting_relayout_callbacks :=
     f.(_waiting_relayout_callbacks); _restyle_in_process :=
     f.(_restyle_in_process); _waiting_restyle_callbacks :=
     f.(_waiting_restyle_callbacks); _in_batch_mode := f.(_in_batch_mode);
     _batch_style_commands := f.(_batch_style_commands);
     _batch_layout_commands := f.(_batch_layout_commands); store :=
     f.(store); effects := f.(effects) |}.

Definition set_layout (x : pdict) (f : Figure) : Figure :=
  {| _data := f.(_data); _data_defaults := f.(_data_defaults); _data_objs :=
     f.(_data_objs); _layout := x; _layout_defaults := f.(_layout_defaults);
     _layout_obj := f.(_layout_obj); _last_relayout_msg_id :=
     f.(_last_relayout_msg_id); _last_restyle_msg_id :=
     f.(_last_restyle_msg_id); _relayout_in_process :=
     f.(_relayout_in_process); _waiting_relayout_callbacks :=
     f.(_waiting_relayout_callbacks); _restyle_in_process :=
     f.(_restyle_in_process); _waiting_restyle_callbacks :=
     f.(_waiting_restyle_callbacks); _in_batch_mode := f.(_in_batch_mode);
     _batch_style_commands := f.(_batch_style_commands);
     _batch_layout_commands := f.(_batch_layout_commands); store :=
     f.(store); effects := f.(effects) |}.

Definition set_layout_defaults (x : pdict) (f : Figure) : Figure :=
  {| _data := f.(_data); _data_defaults := f.(_data_defaults); _data_objs :=
     f.(_data_objs); _layout := f.(_layout); _layout_defaults := x;
     _layout_obj := f.(_layout_obj); _last_relayout_msg_id :=
     f.(_last_relayout_msg_id); _last_restyle_msg_id :=
     f.(_last_restyle_msg_id); _relayout_in_process :=
     f.(_relayout_in_process); _waiting_relayout_callbacks :=
     f.(_waiting_relayout_callbacks); _restyle_in_process :=
     f.(_restyle_in_process); _waiting_restyle_callbacks :=
     f.(_waiting_restyle_callbacks); _in_batch_mode := f.(_in_batch_mode);
     _batch_style_commands := f.(_batch_style_commands);
     _batch_layout_commands := f.(_batch_layout_commands); store :=
     f.(store); effects := f.(effects) |}.

Definition set_layout_obj (x : objid) (f : Figure) : Figure :=
  {| _data := f.(_data); _data_defaults := f.(_data_defaults); _data_objs :=
     f.(_data_objs); _layout := f.(_layout); _layout_defaults :=
     f.(_layout_defaults); _layout_obj := x; _last_relayout_msg_id :=
     f.(_last_relayout_msg_id); _last_restyle_msg_id :=
     f.(_last_restyle_msg_id); _relayout_in_process :=
     f.(_relayout_in_process); _waiting_relayout_callbacks :=
     f.(_waiting_relayout_callbacks); _restyle_in_process :=
     f.(_restyle_in_process); _waiting_restyle_callbacks :=
     f.(_waiting_restyle_callbacks); _in_batch_mode := f.(_in_batch_mode);
     _batch_style_commands := f.(_batch_style_commands);
     _batch_layout_commands := f.(_batch_layout_commands); store :=
     f.(store); effects := f.(effects) |}.

Definition set_last_relayout_msg_id (x : Z) (f : Figure) : Figure :=
  {| _data := f.(_data); _data_defaults := f.(_data_defaults); _data_objs :=
     f.(_data_objs); _layout := f.(_layout); _layout_defaults :=
     f.(_layout_defaults); _layout_obj := f.(_layout_obj);
     _last_relayout_msg_id := x; _last_restyle_msg_id :=
     f.(_last_restyle_msg_id); _relayout_in_process :=
     f.(_relayout_in_process); _waiting_relayout_callbacks :=
     f.(_waiting_relayout_callbacks); _restyle_in_process :=
     f.(_restyle_in_process); _waiting_restyle_callbacks :=
     f.(_waiting_restyle_callbacks); _in_batch_mode := f.(_in_batch_mode);
     _batch_style_commands := f.(_batch_style_commands);
     _batch_layout_commands := f.(_batch_layout_commands); store :=
     f.(store); effects := f.(effects) |}.

Definition set_last_restyle_msg_id (x : Z) (f : Figure) : Figure :=
  {| _data := f.(_data); _data_defaults := f.(_data_defaults); _data_objs :=
     f.(_data_objs); _layout := f.(_layout); _layout_defaults :=
     f.(_layout_defaults); _layout_obj := f.(_layout_obj);
     _last_relayout_msg_id := f.(_last_relayout_msg_id);
     _last_restyle_msg_id := x; _relayout_in_process :=
     f.(_relayout_in_process); _waiting_relayout_callbacks :=
     f.(_waiting_relayout_callbacks); _restyle_in_process :=
     f.(_restyle_in_process); _waiting_restyle_callbacks :=
     f.(_waiting_restyle_callbacks); _in_batch_mode := f.(_in_batch_mode);
     _batch_style_commands := f.(_batch_style_commands);
     _batch_layout_commands := f.(_batch_layout_commands); store :=
     f.(store); effects := f.(effects) |}.

Definition set_relayout_in_process (x : bool) (f : Figure) : Figure :=
  {| _data := f.(_data); _data_defaults := f.(_data_defaults); _data_objs :=
     f.(_data_objs); _layout := f.(_layout); _layout_defaults :=
     f.(_layout_defaults); _layout_obj := f.(_layout_obj);
     _last_relayout_msg_id := f.(_last_relayout_msg_id);
     _last_restyle_msg_id := f.(_last_restyle_msg_id); _relayout_in_process
     := x; _waiting_relayout_callbacks := f.(_waiting_relayout_callbacks);
     _restyle_in_process := f.(_restyle_in_process);
     _waiting_restyle_callbacks := f.(_waiting_restyle_callbacks);
     _in_batch_mode := f.(_in_batch_mode); _batch_style_commands :=
     f.(_batch_style_commands); _batch_layout_commands :=
     f.(_batch_layout_commands); store := f.(store); effects := f.(effects) |}.

Definition set_waiting_relayout_callbacks (x : list callback) (f : Figure) : Figure :=
  {| _data := f.(_data); _data_defaults := f.(_data_defaults); _data_objs :=
     f.(_data_objs); _layout := f.(_layout); _layout_defaults :=
     f.(_layout_defaults); _layout_obj := f.(_layout_obj);
     _last_relayout_msg_id := f.(_last_relayout_msg_id);
     _last_restyle_msg_id := f.(_last_restyle_msg_id); _relayout_in_process
     := f.(_relayout_in_process); _waiting_relayout_callbacks := x;
     _restyle_in_process := f.(_restyle_in_process);
     _waiting_restyle_callbacks := f.(_waiting_restyle_callbacks);
     _in_batch_mode := f.(_in_batch_mode); _batch_style_commands :=
     f.(_batch_style_commands); _batch_layout_commands :=
     f.(_batch_layout_commands); store := f.(store); effects := f.(effects) |}.

Definition set_restyle_in_process (x : bool) (f : Figure) : Figure :=
  {| _data := f.(_data); _data_defaults := f.(_data_defaults); _data_objs :=
     f.(_data_objs); _layout := f.(_layout); _layout_defaults :=
     f.(_layout_defaults); _layout_obj := f.(_layout_obj);
     _last_relayout_msg_id := f.(_last_relayout_msg_id);
     _last_restyle_msg_id := f.(_last_restyle_msg_id); _relayout_in_process
     := f.(_relayout_in_process); _waiting_relayout_callbacks :=
     f.(_waiting_relayout_callbacks); _restyle_in_process := x;
     _waiting_restyle_callbacks := f.(_waiting_restyle_callbacks);
     _in_batch_mode := f.(_in_batch_mode); _batch_style_commands :=
     f.(_batch_style_commands); _batch_layout_commands :=
     f.(_batch_layout_commands); store := f.(store); effects := f.(effects) |}.

Definition set_waiting_restyle_callbacks (x : list callback) (f : Figure) : Figure :=
  {| _data := f.(_data); _data_defaults := f.(_data_defaults); _data_objs :=
     f.(_data_objs); _layout := f.(_layout); _layout_defaults :=
     f.(_layout_defaults); _layout_obj := f.(_layout_obj);
     _last_relayout_msg_id := f.(_last_relayout_msg_id);
     _last_restyle_msg_id := f.(_last_restyle_msg_id); _relayout_in_process
     := f.(_relayout_in_process); _waiting_relayout_callbacks :=
     f.(_waiting_relayout_callbacks); _restyle_in_process :=
     f.(_restyle_in_process); _waiting_restyle_callbacks := x;
     _in_batch_mode := f.(_in_batch_mode); _batch_style_commands :=
     f.(_batch_style_commands); _batch_layout_commands :=
     f.(_batch_layout_commands); store := f.(store); effects := f.(effects) |}.

Definition set_in_batch_mode (x : bool) (f : Figure) : Figure :=
  {| _data := f.(_data); _data_defaults := f.(_data_defaults); _data_objs :=
     f.(_data_objs); _layout := f.(_layout); _layout_defaults :=
     f.(_layout_defaults); _layout_obj := f.(_layout_obj);
     _last_relayout_msg_id := f.(_last_relayout_msg_id);
     _last_restyle_msg_id := f.(_last_restyle_msg_id); _relayout_in_process
     := f.(_relayout_in_process); _waiting_relayout_callbacks :=
     f.(_waiting_relayout_callbacks); _restyle_in_process :=
     f.(_restyle_in_process); _waiting_restyle_callbacks :=
     f.(_waiting_restyle_callbacks); _in_batch_mode := x;
     _batch_style_commands := f.(_batch_style_commands);
     _batch_layout_commands := f.(_batch_layout_commands); store :=
     f.(store); effects := f.(effects) |}.

Definition set_batch_style_commands (x : list (Z * odict)) (f : Figure) : Figure :=
  {| _data := f.(_data); _data_defaults := f.(_data_defaults); _data_objs :=
     f.(_data_objs); _layout := f.(_layout); _layout_defaults :=
     f.(_layout_defaults); _layout_obj := f.(_layout_obj);
     _last_relayout_msg_id := f.(_last_relayout_msg_id);
     _last_restyle_msg_id := f.(_last_restyle_msg_id); _relayout_in_process
     := f.(_relayout_in_process); _waiting_relayout_callbacks :=
     f.(_waiting_relayout_callbacks); _restyle_in_process :=
     f.(_restyle_in_process); _waiting_restyle_callbacks :=
     f.(_waiting_restyle_callbacks); _in_batch_mode := f.(_in_batch_mode);
     _batch_style_commands := x; _batch_layout_commands :=
     f.(_batch_layout_commands); store := f.(store); effects := f.(effects) |}.

Definition set_batch_layout_commands (x : odict) (f : Figure) : Figure :=
  {| _data := f.(_data); _data_defaults := f.(_data_defaults); _data_objs :=
     f.(_data_objs); _layout := f.(_layout); _layout_defaults :=
     f.(_layout_defaults); _layout_obj := f.(_layout_obj);
     _last_relayout_msg_id := f.(_last_relayout_msg_id);
     _last_restyle_msg_id := f.(_last_restyle_msg_id); _relayout_in_process
     := f.(_relayout_in_process); _waiting_relayout_callbacks :=
     f.(_waiting_relayout_callbacks); _restyle_in_process :=
     f.(_restyle_in_process); _waiting_restyle_callbacks :=
     f.(_waiting_restyle_callbacks); _in_batch_mode := f.(_in_batch_mode);
     _batch_style_commands := f.(_batch_style_commands);
     _batch_layout_commands := x; store := f.(store); effects := f.(effects) |}.

Definition set_store (x : objid -> PlotlyObj) (f : Figure) : Figure :=
  {| _data := f.(_data); _data_defaults := f.(_data_defaults); _data_objs :=
     f.(_data_objs); _layout := f.(_layout); _layout_defaults :=
     f.(_layout_defaults); _layout_obj := f.(_layout_obj);
     _last_relayout_msg_id := f.(_last_relayout_msg_id);
     _last_restyle_msg_id := f.(_last_restyle_msg_id); _relayout_in_process
     := f.(_relayout_in_process); _waiting_relayout_callbacks :=
     f.(_waiting_relayout_callbacks); _restyle_in_process :=
     f.(_restyle_in_process); _waiting_restyle_callbacks :=
     f.(_waiting_restyle_callbacks); _in_batch_mode := f.(_in_batch_mode);
     _batch_style_commands := f.(_batch_style_commands);
     _batch_layout_commands := f.(_batch_layout_commands); store := x;
     effects := f.(effects) |}.

Definition set_effects (x : list effect) (f : Figure) : Figure :=
  {| _data := f.(_data); _data_defaults := f.(_data_defaults); _data_objs :=
     f.(_data_objs); _layout := f.(_layout); _layout_defaults :=
     f.(_layout_defaults); _layout_obj := f.(_layout_obj);
     _last_relayout_msg_id := f.(_last_relayout_msg_id);
     _last_restyle_msg_id := f.(_last_restyle_msg_id); _relayout_in_process
     := f.(_relayout_in_process); _waiting_relayout_callbacks :=
     f.(_waiting_relayout_callbacks); _restyle_in_process :=
     f.(_restyle_in_process); _waiting_restyle_callbacks :=
     f.(_waiting_restyle_callbacks); _in_batch_mode := f.(_in_batch_mode);
     _batch_style_commands := f.(_batch_style_commands);
     _batch_layout_commands := f.(_batch_layout_commands); store :=
     f.(store); effects := x |}.

(** ** The state-and-exception monad of figure methods *)

Definition M (A : Type) : Type := Figure -> Figure * result A.

Definition ret {A} (a : A) : M A := fun f => (f, Ok a).

Definition bind {A B} (m : M A) (k : A -> M B) : M B :=
  fun f => match m f with
           | (f', Ok a) => k a f'
           | (f', Raise e) => (f', Raise e)
           end.

Definition raise {A} (e : pyexc) : M A := fun f => (f, Raise e).

Definition get : M Figure := fun f => (f, Ok f).

Definition modify (g : Figure -> Figure) : M unit := fun f => (g f, Ok tt).

Definition lift {A} (r : result A) : M A := fun f => (f, r).

Notation "x <- m ;; k" := (bind m (fun x => k))
  (at level 100, m at next level, right associativity).
Notation "m ;; k" := (bind m (fun _ => k))
  (at level 100, right associativity).

(** One more message sent or callback run. *)
Definition emit (e : effect) : M unit :=
  modify (fun f => set_effects (f.(effects) ++ [e]) f).

(** ** Restyle *)

(** [_perform_restyle_dict]: the patch algorithm on [self._data]. *)
Definition _perform_restyle_dict (style : odict) (trace_indexes : list Z) : M odict :=
  fun f =>
    let '(data', r) := perform_restyle_data style trace_indexes f.(_data) in
    (set_data data' f, r).

(** [_dispatch_change_callbacks_restyle]: the change callbacks registered
    on the trace objects are the caller's code; their dispatch is recorded
    as one effect. *)
Definition _dispatch_change_callbacks_restyle (style : odict) (trace_indexes : list Z)
  : M unit :=
  emit (ChangeCallbacksRestyle style trace_indexes).

Definition _send_restyle_msg (style : odict) (trace_indexes : list Z) : M unit :=
  f <- get ;;
  let relayout_msg_id := f.(_last_relayout_msg_id) + 1 in
  let style := od_set "_relayout_msg_id" (VInt relayout_msg_id) style in
  modify (set_last_relayout_msg_id relayout_msg_id) ;;
  modify (set_relayout_in_process true) ;;
  f <- get ;;
  let restyle_msg_id := f.(_last_restyle_msg_id) + 1 in
  let style := od_set "_restyle_msg_id" (VInt restyle_msg_id) style in
  modify (set_last_restyle_msg_id restyle_msg_id) ;;
  modify (set_restyle_in_process true) ;;
  emit (Py2js_restyle style trace_indexes).

(** [list(range(n))]. *)
Definition py_range (n : nat) : list Z := Z.of_nat <$> seq 0 n.

(** [restyle(style, trace_indexes=None)], for [trace_indexes] a list. *)
Definition restyle (style : odict) (trace_indexes : option (list Z)) : M unit :=
  f <- get ;;
  let trace_indexes :=
    match trace_indexes with
    | None => py_range (length f.(_data_objs))
    | Some l => l
    end in
  restyle_msg <- _perform_restyle_dict style trace_indexes ;;
  match restyle_msg with
  | [] => ret tt
  | _ =>
      _dispatch_change_callbacks_restyle restyle_msg trace_indexes ;;
      _send_restyle_msg restyle_msg trace_indexes
  end.

(** ** Completion callbacks *)

Definition on_relayout_completed (fn : callback) : M unit :=
  f <- get ;;
  if f.(_relayout_in_process) then
    modify (set_waiting_relayout_callbacks (f.(_waiting_relayout_callbacks) ++ [fn]))
  else emit (Called fn).

Definition on_restyle_completed (fn : callback) : M unit :=
  f <- get ;;
  if f.(_restyle_in_process) then
    modify (set_waiting_restyle_callbacks (f.(_waiting_restyle_callbacks) ++ [fn]))
  else emit (Called fn).

(** ** Backing data of a node: [BasePlotlyType._props] *)

Definition set_obj (o : objid) (x : PlotlyObj) (st : objid -> PlotlyObj)
  : objid -> PlotlyObj :=
  fun o' => if decide (o' = o) then x else st o'.

Definition obj_set_parent (p : option parent_ref) (x : PlotlyObj) : PlotlyObj :=
  {| _name := x.(_name); _parent := p; _orphan_props := x.(_orphan_props);
     _compound_props := x.(_compound_props); _validators := x.(_validators);
     _subplotid_props := x.(_subplotid_props) |}.

Definition obj_set_orphan_props (d : pdict) (x : PlotlyObj) : PlotlyObj :=
  {| _name := x.(_name); _parent := x.(_parent); _orphan_props := d;
     _compound_props := x.(_compound_props); _validators := x.(_validators);
     _subplotid_props := x.(_subplotid_props) |}.

Definition obj_set_compound_props (c : gmap string pyref) (x : PlotlyObj) : PlotlyObj :=
  {| _name := x.(_name); _parent := x.(_parent); _orphan_props := x.(_orphan_props);
     _compound_props := c; _validators := x.(_validators);
     _subplotid_props := x.(_subplotid_props) |}.

Definition obj_set_validators (v : gmap string validator) (x : PlotlyObj) : PlotlyObj :=
  {| _name := x.(_name); _parent := x.(_parent); _orphan_props := x.(_orphan_props);
     _compound_props := x.(_compound_props); _validators := v;
     _subplotid_props := x.(_subplotid_props) |}.

Definition obj_set_subplotid_props (c : gmap string pyref) (x : PlotlyObj) : PlotlyObj :=
  {| _name := x.(_name); _parent := x.(_parent); _orphan_props := x.(_orphan_props);
     _compound_props := x.(_compound_props); _validators := x.(_validators);
     _subplotid_props := c |}.

(** [l.index(x)] on a list of objects, which compare by identity. *)
Definition obj_index (x : objid) (l : list objid) : option nat :=
  fst <$> list_find (fun y => y = x) l.

(** [BaseFigureWidget._get_child_props]. *)
Definition figure_get_child_props (f : Figure) (child : objid) : result value :=
  match obj_index child f.(_data_objs) with
  | Some trace_index =>
      match f.(_data) !! trace_index with
      | Some d => Ok (VDict d)
      | None => Raise PyIndexError
      end
  | None =>
      if decide (child = f.(_layout_obj)) then Ok (VDict f.(_layout))
      else Raise (ValueError UnrecognizedChild)
  end.

(** [BaseFigureWidget._get_child_prop_defaults]. *)
Definition figure_get_child_prop_defaults (f : Figure) (child : objid) : result value :=
  match obj_index child f.(_data_objs) with
  | Some trace_index =>
      match f.(_data_defaults) !! trace_index with
      | Some d => Ok (VDict d)
      | None => Raise PyIndexError
      end
  | None =>
      if decide (child = f.(_layout_obj)) then Ok (VDict f.(_layout_defaults))
      else Raise (ValueError UnrecognizedChild)
  end.

(** [len(v)]. *)
Definition py_len (v : value) : result nat :=
  match v with
  | VList l => Ok (length l)
  | VDict m => Ok (size m)
  | VStr s => Ok (String.length s)
  | _ => Raise PyTypeError
  end.

(** [self_props.get(name, None)]. *)
Definition py_dict_get (self_props : value) (name : string) : result value :=
  match self_props with
  | VDict m => Ok (default VNone (m !! KStr name))
  | _ => Raise PyAttributeError
  end.

(** [p._get_child_props(child)] for the parent [p]: the figure's method,
    or [BasePlotlyType._get_child_props], which first asks its own parent.
    [fuel] bounds the depth of the calls, as the interpreter does. *)
Fixpoint get_child_props (fuel : nat) (f : Figure) (p : parent_ref) (child : objid)
  : result value :=
  match p with
  | FigureRef => figure_get_child_props f child
  | NodeRef self =>
      match fuel with
      | O => Raise PyRecursionError
      | S fuel' =>
          match (f.(store) self).(_parent) with
          | None => Raise PyAttributeError
          | Some pp =>
              match get_child_props fuel' f pp self with
              | Raise e => Raise e
              | Ok VNone => Ok VNone
              | Ok self_props =>
                  let name := (f.(store) child).(_name) in
                  match (f.(store) self).(_compound_props) !! name with
                  | None => Raise (PyKeyError (KStr name))
                  | Some (RObj c) =>
                      if decide (c = child) then py_dict_get self_props name
                      else Ok VNone
                  | Some (RTuple cs) =>
                      match obj_index child cs with
                      | None => Raise PyValueError
                      | Some child_ind =>
                          match py_dict_get self_props name with
                          | Raise e => Raise e
                          | Ok VNone => Ok VNone
                          | Ok children_props =>
                              match py_len children_props with
                              | Raise e => Raise e
                              | Ok n =>
                                  if bool_decide (child_ind < n)%nat
                                  then py_getitem children_props (KInt (Z.of_nat child_ind))
                                  else Ok VNone
                              end
                          end
                      end
                  | Some RNone => Ok VNone
                  end
              end
          end
      end
  end.

(** The interpreter's recursion limit. *)
Definition recursion_limit : nat := 1000.

(** [o._props]. *)
Definition _props (f : Figure) (o : objid) : result value :=
  match (f.(store) o).(_parent) with
  | None => Ok (VDict (f.(store) o).(_orphan_props))
  | Some p => get_child_props recursion_limit f p o
  end.

(** [o._prop_defaults] for a node whose parent is the figure or nothing. *)
Definition _prop_defaults (f : Figure) (o : objid) : result value :=
  match (f.(store) o).(_parent) with
  | None => Ok VNone
  | Some FigureRef => figure_get_child_prop_defaults f o
  | Some (NodeRef _) => Ok VNone
  end.

(** Modelled from the spec: the [uid] property of the generated trace
    classes (they are not among the sources; [BaseTraceType.uid] is
    abstract).  It reads the simple property ["uid"] the way the
    specification describes a read: the stored value if the backing data
    has one, else the recorded implicit default, else [None]. *)
Definition trace_uid (f : Figure) (trace : objid) : result value :=
  match _props f trace with
  | Raise e => Raise e
  | Ok (VDict d) =>
      match d !! KStr "uid" with
      | Some v => Ok v
      | None =>
          match _prop_defaults f trace with
          | Raise e => Raise e
          | Ok defaults =>
              match defaults with
              | VNone => Ok VNone
              | _ => py_dict_get defaults "uid"
              end
          end
      end
  | Ok VNone =>
      match _prop_defaults f trace with
      | Raise e => Raise e
      | Ok VNone => Ok VNone
      | Ok defaults => py_dict_get defaults "uid"
      end
  | Ok _ => Raise PyTypeError
  end.

(** ** Lists and sets of values *)

Definition value_mem (v : value) (l : list value) : bool := existsb (value_eqb v) l.

(** The elements of [set(l)], each once. *)
Fixpoint py_set (l : list value) : list value :=
  match l with
  | [] => []
  | x :: l' => x :: filter (fun y => value_eqb x y = false) (py_set l')
  end.

(** [set(a).difference(set(b))]. *)
Definition py_set_difference (a b : list value) : list value :=
  filter (fun x => value_mem x b = false) (py_set a).

Definition value_count (v : value) (l : list value) : nat :=
  length (filter (fun y => value_eqb v y = true) l).

(** [l.index(v)]. *)
Fixpoint value_index (v : value) (l : list value) : result nat :=
  match l with
  | [] => Raise PyValueError
  | x :: l' =>
      if value_eqb x v then Ok 0%nat
      else match value_index v l' with
           | Ok n => Ok (S n)
           | Raise e => Raise e
           end
  end.

Fixpoint mapM_result {A B} (g : A -> result B) (l : list A) : result (list B) :=
  match l with
  | [] => Ok []
  | x :: l' =>
      match g x with
      | Raise e => Raise e
      | Ok y => match mapM_result g l' with
                | Raise e => Raise e
                | Ok ys => Ok (y :: ys)
                end
      end
  end.

(** [del l[i]]. *)
Definition py_del {A} (i : nat) (l : list A) : result (list A) :=
  if bool_decide (i < length l)%nat then Ok (delete i l) else Raise PyIndexError.

(** [for i in reversed(inds): del l[i]]. *)
Definition py_del_reversed {A} (inds : list nat) (l : list A) : result (list A) :=
  foldl (fun acc i => match acc with
                      | Ok l' => py_del i l'
                      | Raise e => Raise e
                      end) (Ok l) (rev inds).

(** [l.insert(i, x)]: an index past the end appends. *)
Definition py_insert {A} (i : nat) (x : A) (l : list A) : list A :=
  take i l ++ x :: drop i l.

(** [sorted] on pairs of an index and a dict.  With equal indexes the
    tuples are compared on the dicts, which the interpreter refuses unless
    they are equal. *)
Fixpoint insert_sorted {A} (x : nat * A) (l : list (nat * A)) : list (nat * A) :=
  match l with
  | [] => [x]
  | y :: l' => if (x.1 <=? y.1)%nat then x :: l else y :: insert_sorted x l'
  end.

Fixpoint tie_conflict (l : list (nat * pdict)) : bool :=
  match l with
  | [] => false
  | (k, d) :: l' =>
      existsb (fun kd => (k =? kd.1)%nat && negb (value_eqb (VDict d) (VDict kd.2))) l'
      || tie_conflict l'
  end.

Definition py_sorted (l : list (nat * pdict)) : result (list (nat * pdict)) :=
  if tie_conflict l then Raise PyTypeError
  else Ok (foldr insert_sorted [] l).

(** ** Assigning [figure.data] *)

(** [_trace['uid']] for an entry of [self._data]. *)
Definition mirror_uid (d : pdict) : result value :=
  match d !! KStr "uid" with
  | Some v => Ok v
  | None => Raise (PyKeyError (KStr "uid"))
  end.

(** The loop that collects [delete_inds] and unparents the traces to be
    removed, over [enumerate(self._data)] given as positions with uids. *)
Fixpoint unparent_removed (remove_uids : list value) (enum : list (nat * value))
    (delete_inds : list nat) : M (list nat) :=
  match enum with
  | [] => ret delete_inds
  | (i, uid) :: enum' =>
      if value_mem uid remove_uids then
        f <- get ;;
        old_trace <- lift (match f.(_data_objs) !! i with
                           | Some t => Ok t
                           | None => Raise PyIndexError
                           end) ;;
        props <- lift (_props f old_trace) ;;
        match props with
        | VDict d =>
            modify (fun f =>
              set_store (set_obj old_trace
                (obj_set_parent None
                   (obj_set_orphan_props (d ∪ (f.(store) old_trace).(_orphan_props))
                      (f.(store) old_trace)))
                f.(store)) f) ;;
            unparent_removed remove_uids enum' (delete_inds ++ [i])
        | _ => raise PyTypeError
        end
      else unparent_removed remove_uids enum' delete_inds
  end.

(** [for ni, trace_data in zip(new_inds, moving_traces_data):
       self._data.insert(ni, trace_data)]. *)
Definition insert_all (pairs : list (nat * pdict)) (data : list pdict) : list pdict :=
  foldl (fun acc p => py_insert p.1 p.2 acc) data pairs.

(** [all([i1 == i2 for i1, i2 in zip(new_inds, current_inds)])]. *)
Definition all_equal (new_inds current_inds : list nat) : bool :=
  forallb (fun p => (p.1 =? p.2)%nat) (zip new_inds current_inds).

Definition data_setter (new_data : list objid) : M unit :=
  f <- get ;;
  (* Validate new_data *)
  orig_uids <- lift (mapM_result mirror_uid f.(_data)) ;;
  new_uids <- lift (mapM_result (trace_uid f) new_data) ;;
  if negb (forallb hashable new_uids && forallb hashable orig_uids) then raise PyTypeError
  else
  let invalid_uids := py_set_difference new_uids orig_uids in
  match invalid_uids with
  | _ :: _ => raise (ValueError (InvalidTraceUids invalid_uids))
  | [] =>
  (* Check for duplicates *)
  let duplicate_uids :=
    filter (fun uid => (1 <? value_count uid new_uids)%nat = true) (py_set new_uids) in
  match duplicate_uids with
  | _ :: _ => raise (ValueError (DuplicateTraceUids duplicate_uids))
  | [] =>
  (* Compute traces to remove *)
  let remove_uids := py_set_difference orig_uids new_uids in
  delete_inds <- unparent_removed remove_uids (zip (seq 0 (length orig_uids)) orig_uids) [] ;;
  (* Compute trace data list after removal *)
  traces_props_post_removal <- lift (py_del_reversed delete_inds f.(_data)) ;;
  traces_prop_defaults_post_removal <-
    lift (py_del_reversed delete_inds f.(_data_defaults)) ;;
  orig_uids_post_removal <- lift (py_del_reversed delete_inds orig_uids) ;;
  (match delete_inds with
   | [] => ret tt
   | _ :: _ =>
       let relayout_msg_id := f.(_last_relayout_msg_id) + 1 in
       modify (set_last_relayout_msg_id relayout_msg_id) ;;
       modify (set_relayout_in_process true) ;;
       modify (set_data traces_props_post_removal) ;;
       emit (Py2js_deleteTraces delete_inds relayout_msg_id)
   end) ;;
  (* Compute move traces *)
  new_inds <- lift (mapM_result (fun uid => value_index uid new_uids)
                      orig_uids_post_removal) ;;
  let current_inds := seq 0 (length traces_props_post_removal) in
  new_inds <-
    (if all_equal new_inds current_inds then ret new_inds
     else
       emit (Py2js_moveTraces current_inds new_inds) ;;
       f1 <- get ;;
       let moving_traces_data := f1.(_data) in
       sorted_pairs <- lift (py_sorted (zip new_inds moving_traces_data)) ;;
       modify (set_data (insert_all sorted_pairs [])) ;;
       ret (sorted_pairs.*1)) ;;
  (* Update _traces order *)
  sorted_defaults <- lift (py_sorted (zip new_inds traces_prop_defaults_post_removal)) ;;
  modify (set_data_defaults (sorted_defaults.*2)) ;;
  modify (set_data_objs new_data)
  end end.

(** ** Adding traces *)

(** [add_traces(data)].  The traces validator is not among the sources:
    [coerced] is what [self._data_validator.validate_coerce(data)] answers,
    the trace objects or an exception. *)
Definition add_traces (coerced : result (list objid)) : M (list objid) :=
  f <- get ;;
  if f.(_in_batch_mode) then
    modify (set_batch_layout_commands []) ;;
    modify (set_batch_style_commands []) ;;
    raise (ValueError TracesInBatchContext)
  else
    data <- lift coerced ;;
    (* Make deep copy of trace data *)
    new_traces_data <-
      lift (mapM_result (fun trace => match _props f trace with
                                      | Ok (VDict d) => Ok d
                                      | Ok _ => Raise PyTypeError
                                      | Raise e => Raise e
                                      end) data) ;;
    (* Update trace parent *)
    modify (fun f =>
      set_store (foldl (fun st trace =>
                          set_obj trace
                            (obj_set_orphan_props ∅
                               (obj_set_parent (Some FigureRef) (st trace))) st)
                   f.(store) data) f) ;;
    (* Update messages *)
    let relayout_msg_id := f.(_last_relayout_msg_id) + 1 in
    let restyle_msg_id := f.(_last_restyle_msg_id) + 1 in
    (* the dicts appended to the mirror are the ones the ids are written to *)
    let new_traces_data :=
      (fun d => <[KStr "_restyle_msg_id" := VInt restyle_msg_id]>
                  (<[KStr "_relayout_msg_id" := VInt relayout_msg_id]> d))
        <$> new_traces_data in
    (* Update python side *)
    modify (set_data (f.(_data) ++ new_traces_data)) ;;
    modify (set_data_defaults (f.(_data_defaults) ++ ((fun _ => ∅) <$> data))) ;;
    modify (set_data_objs (f.(_data_objs) ++ data)) ;;
    modify (set_last_relayout_msg_id relayout_msg_id) ;;
    modify (set_relayout_in_process true) ;;
    modify (set_last_restyle_msg_id restyle_msg_id) ;;
    modify (set_restyle_in_process true) ;;
    (* Send to front end *)
    emit (Py2js_addTraces new_traces_data) ;;
    ret data.

(** ** Relayout *)

Definition key_value (k : pkey) : value :=
  match k with KStr s => VStr s | KInt z => VInt z end.

(** [k in container]. *)
Definition py_contains (container : value) (k : pkey) : result bool :=
  match container, k with
  | VList l, _ => Ok (value_mem (key_value k) l)
  | VDict m, _ => Ok (bool_decide (is_Some (m !! k)))
  | VStr s, KStr k' => Ok (bool_decide (is_Some (String.index 0 k' s)))
  | _, _ => Raise PyTypeError
  end.

(** The body of the loop over [key_path[:-1]] in [_perform_relayout_dict]
    before the indexing: it differs from the restyle loop by the outer
    test [key_path_el not in val_parent]. *)
Definition relayout_vivify (val_parent : value) (key_path_el next_el : pkey)
  : result value :=
  match py_contains val_parent key_path_el with
  | Raise e => Raise e
  | Ok true => Ok val_parent
  | Ok false => Ok (restyle_vivify val_parent key_path_el next_el)
  end.

(** The leaf of [_perform_relayout_dict]; [Some x] is [relayout_msg[raw_key] = x]. *)
Definition relayout_leaf (val_parent : value) (last_key : pkey) (v : value)
  : value * result (option value) :=
  match v, val_parent with
  | VUndefined, _ => (val_parent, Ok None)
  | VNone, VDict m =>
      match m !! last_key with
      | Some _ => (VDict (delete last_key m), Ok (Some VNone))
      | None => (val_parent, Ok None)
      end
  | VNone, _ => (val_parent, Ok None)
  | _, VList l =>
      match last_key with
      | KInt z =>
          let l' : list value := (l ++ replicate (Z.to_nat (z + 1) - length l) VNone)%list in
          match py_norm_index (length l') z with
          | Some n => (VList (<[n := v]> l'), Ok (Some v))
          | None => (VList l', Raise PyIndexError)
          end
      | KStr _ => (val_parent, Ok None)
      end
  | _, VDict m =>
      match m !! last_key with
      | Some old =>
          if _vals_equal old v then (val_parent, Ok None)
          else (VDict (<[last_key := v]> m), Ok (Some v))
      | None => (VDict (<[last_key := v]> m), Ok (Some v))
      end
  | _, _ => (val_parent, Ok None)
  end.

Fixpoint relayout_path (val_parent : value) (key_path : list pkey) (v : value)
  : value * result (option value) :=
  match key_path with
  | [] => (val_parent, Raise PyIndexError)
  | [last_key] => relayout_leaf val_parent last_key v
  | key_path_el :: ((next_el :: _) as rest) =>
      match relayout_vivify val_parent key_path_el next_el with
      | Raise e => (val_parent, Raise e)
      | Ok vp =>
          match py_getitem vp key_path_el with
          | Raise e => (vp, Raise e)
          | Ok child =>
              let '(child', r) := relayout_path child rest v in
              (py_store_child vp key_path_el child', r)
          end
      end
  end.

(** The loop over [relayout_data.items()]. *)
Fixpoint relayout_entries (relayout_data : odict) (layout : pdict) (relayout_msg : odict)
  : pdict * result odict :=
  match relayout_data with
  | [] => (layout, Ok relayout_msg)
  | (raw_key, v) :: rest =>
      let '(vp, r) := relayout_path (VDict layout) (_str_to_dict_path raw_key) v in
      let layout' := match vp with VDict d => d | _ => layout end in
      match r with
      | Raise e => (layout', Raise e)
      | Ok None => relayout_entries rest layout' relayout_msg
      | Ok (Some x) => relayout_entries rest layout' (od_set raw_key x relayout_msg)
      end
  end.

Definition _perform_relayout_dict (relayout_data : odict) : M odict :=
  fun f =>
    let '(layout', r) := relayout_entries relayout_data f.(_layout) [] in
    (set_layout layout' f, r).

Definition _dispatch_change_callbacks_relayout (relayout_msg : odict) : M unit :=
  emit (ChangeCallbacksRelayout relayout_msg).

Definition _send_relayout_msg (layout : odict) : M unit :=
  f <- get ;;
  let msg_id := f.(_last_relayout_msg_id) + 1 in
  let layout := od_set "_relayout_msg_id" (VInt msg_id) layout in
  modify (set_last_relayout_msg_id msg_id) ;;
  emit (Py2js_relayout layout).


(** ** Update and the batch context *)

(** [not d] for an optional dict: [None] or empty. *)
Definition falsy_dict (d : option odict) : bool :=
  match d with
  | None | Some [] => true
  | Some _ => false
  end.

(** [_perform_update_dict]; [None] is the triple [(None, None, None)]. *)
Definition _perform_update_dict (style layout : option odict)
    (trace_indexes : option (list Z)) : M (option (odict * odict * list Z)) :=
  if falsy_dict style && falsy_dict layout then ret None
  else
    let style := default [] style in
    let layout := default [] layout in
    f <- get ;;
    let trace_indexes :=
      match trace_indexes with
      | None => py_range (length f.(_data_objs))
      | Some l => l
      end in
    relayout_msg <- _perform_relayout_dict layout ;;
    restyle_msg <- _perform_restyle_dict style trace_indexes ;;
    ret (Some (restyle_msg, relayout_msg, trace_indexes)).

Definition _send_update_msg (style layout : odict) (trace_indexes : list Z) : M unit :=
  f <- get ;;
  (* Add restyle message id *)
  let restyle_msg_id := f.(_last_restyle_msg_id) + 1 in
  let style := od_set "_restyle_msg_id" (VInt restyle_msg_id) style in
  modify (set_last_restyle_msg_id restyle_msg_id) ;;
  modify (set_restyle_in_process true) ;;
  (* Add relayout message id *)
  let relayout_msg_id := f.(_last_relayout_msg_id) + 1 in
  let layout := od_set "_relayout_msg_id" (VInt relayout_msg_id) layout in
  modify (set_last_relayout_msg_id relayout_msg_id) ;;
  modify (set_relayout_in_process true) ;;
  emit (Py2js_update style layout trace_indexes).

Definition nonempty {A} (l : list A) : bool :=
  match l with [] => false | _ => true end.

Definition update (style layout : option odict) (trace_indexes : option (list Z))
  : M unit :=
  r <- _perform_update_dict style layout trace_indexes ;;
  match r with
  | None => ret tt
  | Some (restyle_msg, relayout_msg, trace_indexes) =>
      (if nonempty restyle_msg
       then _dispatch_change_callbacks_restyle restyle_msg trace_indexes
       else ret tt) ;;
      (if nonempty relayout_msg
       then _dispatch_change_callbacks_relayout relayout_msg
       else ret tt) ;;
      if nonempty restyle_msg || nonempty relayout_msg
      then _send_update_msg restyle_msg relayout_msg trace_indexes
      else ret tt
  end.

(** [sorted(set(l))] on integers and on strings. *)
Fixpoint insert_by {A} (le : A -> A -> bool) (x : A) (l : list A) : list A :=
  match l with
  | [] => [x]
  | y :: l' => if le x y then x :: l else y :: insert_by le x l'
  end.

Definition sorted_set {A} `{EqDecision A} (le : A -> A -> bool) (l : list A) : list A :=
  foldr (insert_by le) [] (remove_dups l).

(** [l.index(x)] on integers. *)
Definition Z_index (x : Z) (l : list Z) : option nat :=
  fst <$> list_find (fun y => y = x) l.

(** [_build_update_params_from_batch]. *)
Definition _build_update_params_from_batch (f : Figure)
  : result (odict * odict * list Z) :=
  let batch_style_commands := f.(_batch_style_commands) in
  let trace_indexes := sorted_set Z.leb (od_keys batch_style_commands) in
  let all_props :=
    sorted_set String.leb
      (flat_map (fun ts => od_keys ts.2) batch_style_commands) in
  (* Initialize style dict with all values undefined *)
  let style : odict :=
    (fun prop => (prop, VList (replicate (length trace_indexes) VUndefined)))
      <$> all_props in
  (* Fill in values *)
  let fill (style : result odict) (cell : Z * (string * value)) : result odict :=
    match style with
    | Raise e => Raise e
    | Ok st =>
        match Z_index cell.1 trace_indexes, od_get cell.2.1 st with
        | Some i, Some (VList vs) =>
            Ok (od_set cell.2.1 (VList (<[i := cell.2.2]> vs)) st)
        | _, _ => Raise PyValueError
        end
    end in
  match foldl fill (Ok style)
          (flat_map (fun ts => (fun pv => (ts.1, pv)) <$> ts.2) batch_style_commands) with
  | Raise e => Raise e
  | Ok style => Ok (style, f.(_batch_layout_commands), trace_indexes)
  end.

Definition _send_batch_update : M unit :=
  f <- get ;;
  params <- lift (_build_update_params_from_batch f) ;;
  let '(style, layout, trace_indexes) := params in
  update (Some style) (Some layout) (Some trace_indexes) ;;
  modify (set_batch_layout_commands []) ;;
  modify (set_batch_style_commands []).

(** The [batch_update] context manager: what runs on entry, with the
    answer whether this is the outermost context, and what runs on exit,
    also when the body raised. *)
Definition batch_update_enter : M bool :=
  f <- get ;;
  if f.(_in_batch_mode) then ret false
  else modify (set_in_batch_mode true) ;; ret true.

Definition batch_update_exit (outermost : bool) : M unit :=
  if outermost then modify (set_in_batch_mode false) ;; _send_batch_update
  else ret tt.

(** * Properties *)

(** ** Equality of values *)

Lemma value_size_list_elem l v : v ∈ l -> (value_size v < value_size (VList l))%nat.
Proof.
  simpl. induction 1 as [|? ? ? ? IH]; simpl; lia.
Qed.

Lemma value_size_dict_elem (m : pdict) k v :
  m !! k = Some v -> (value_size v < value_size (VDict m))%nat.
Proof.
  intros Hk. simpl. rewrite <- (insert_delete_id m k v Hk).
  rewrite map_fold_insert_L.
  - lia.
  - intros; lia.
  - apply lookup_delete_eq.
Qed.

(** Induction on values, with the hypothesis for the elements of a list
    and for the values of a dict. *)
Lemma value_ind' (P : value -> Prop) :
  P VUndefined -> P VNone -> (forall z, P (VInt z)) -> (forall s, P (VStr s)) ->
  (forall l, Forall P l -> P (VList l)) ->
  (forall m, map_Forall (fun _ => P) m -> P (VDict m)) ->
  forall v, P v.
Proof.
  intros HU HN HI HS HL HD v.
  remember (value_size v) as n eqn:Hn.
  revert v Hn. induction (lt_wf n) as [n _ IH]. intros v ->.
  destruct v as [| | | |l|m]; auto.
  - apply HL, Forall_forall. intros x Hx.
    eapply IH; [|reflexivity]. by apply value_size_list_elem.
  - apply HD. intros k x Hx.
    eapply IH; [|reflexivity]. by eapply value_size_dict_elem.
Qed.

Lemma map_fold_andb_true {A} (g : pkey -> A -> bool) (m : gmap pkey A) :
  map_fold (fun k v (acc : bool) => acc && g k v) true m = true <->
  (forall k v, m !! k = Some v -> g k v = true).
Proof.
  rewrite map_fold_foldr.
  transitivity (Forall (fun kv => g kv.1 kv.2 = true) (map_to_list m)).
  - induction (map_to_list m) as [|[k v] l IH]; simpl.
    + split; auto.
    + rewrite andb_true_iff, IH, Forall_cons. simpl. tauto.
  - rewrite Forall_forall. split.
    + intros H k v Hk. apply (H (k, v)). by apply elem_of_map_to_list.
    + intros H [k v] Hk. apply H. by apply elem_of_map_to_list.
Qed.

Lemma list_eqb_spec {A} (eqb : A -> A -> bool) (l1 : list A) :
  Forall (fun x => forall y, eqb x y = true <-> x = y) l1 ->
  forall l2, list_eqb eqb l1 l2 = true <-> l1 = l2.
Proof.
  induction 1 as [|x l1 Hx _ IH]; intros [|y l2]; simpl; try (split; congruence).
  rewrite andb_true_iff, Hx, IH. split; [intros [-> ->]; done | intros [= -> ->]; done].
Qed.

Lemma value_eqb_spec (a b : value) : value_eqb a b = true <-> a = b.
Proof.
  revert b. induction a as [| | z | s | l IH | m IH] using value_ind';
    intros [| | z' | s' | l' | m']; simpl; try (split; congruence).
  - rewrite bool_decide_eq_true. split; congruence.
  - rewrite bool_decide_eq_true. split; congruence.
  - rewrite (list_eqb_spec _ _ IH). split; congruence.
  - rewrite andb_true_iff, bool_decide_eq_true, map_fold_andb_true.
    split.
    + intros [Hsz Hall]. f_equal. apply map_subseteq_size_eq; [|lia].
      apply map_subseteq_spec. intros k v Hk.
      specialize (Hall k v Hk). destruct (m' !! k) as [w|] eqn:Hw; [|done].
      apply (IH k v Hk) in Hall. by subst.
    + intros [= <-]. split; [done|]. intros k v Hk. rewrite Hk.
      by apply (IH k v Hk).
Qed.


Lemma value_eqb_false (a b : value) : value_eqb a b = false <-> a <> b.
Proof.
  rewrite <- value_eqb_spec. destruct (value_eqb a b); split; congruence.
Qed.

#[global] Instance value_eq_dec : EqDecision value.
Proof.
  intros a b. destruct (value_eqb a b) eqn:E.
  - left. by apply value_eqb_spec.
  - right. by apply value_eqb_false.
Defined.

(** ** Insertion-ordered dicts *)

Lemma od_get_set_eq {V} (k : string) (v : V) (d : list (string * V)) :
  od_get k (od_set k v d) = Some v.
Proof.
  induction d as [|[k' v'] d IH]; simpl.
  - by rewrite decide_True.
  - destruct (decide (k = k')) as [->|Hne]; simpl.
    + by rewrite decide_True.
    + by rewrite decide_False.
Qed.

Lemma od_get_set_ne {V} (k k' : string) (v : V) (d : list (string * V)) :
  k <> k' -> od_get k (od_set k' v d) = od_get k d.
Proof.
  intros Hne. induction d as [|[k2 v2] d IH]; simpl.
  - by rewrite decide_False.
  - destruct (decide (k' = k2)) as [->|Hne2]; simpl.
    + by rewrite !decide_False.
    + destruct (decide (k = k2)); [done|]. apply IH.
Qed.

(** Running a monadic computation: unfold the monad's operations. *)
Ltac run_M :=
  cbv [_send_restyle_msg _send_relayout_msg _send_update_msg
       on_relayout_completed on_restyle_completed
       _dispatch_change_callbacks_restyle _dispatch_change_callbacks_relayout
       bind get modify emit ret raise lift];
  cbn.

(** ** Sequence ids and in-flight flags *)

(** C10. Sending a restyle message increments both sequence counters (the
    relayout one as well as the restyle one), writes both ids onto the
    outgoing style patch, and sets both in-process flags; a completion
    callback registered with [on_relayout_completed] right after it is
    therefore queued and not run. *)
Theorem send_restyle_msg_touches_relayout :
  forall (fig : Figure) (style : odict) (trace_indexes : list Z) (fn : callback),
    exists fig' style',
      _send_restyle_msg style trace_indexes fig = (fig', Ok tt)
      /\ fig'.(_last_restyle_msg_id) = fig.(_last_restyle_msg_id) + 1
      /\ fig'.(_last_relayout_msg_id) = fig.(_last_relayout_msg_id) + 1
      /\ fig'.(_restyle_in_process) = true
      /\ fig'.(_relayout_in_process) = true
      /\ fig'.(effects) = fig.(effects) ++ [Py2js_restyle style' trace_indexes]
      /\ od_get "_restyle_msg_id" style' = Some (VInt (fig.(_last_restyle_msg_id) + 1))
      /\ od_get "_relayout_msg_id" style' = Some (VInt (fig.(_last_relayout_msg_id) + 1))
      /\ on_relayout_completed fn fig'
         = (set_waiting_relayout_callbacks
              (fig.(_waiting_relayout_callbacks) ++ [fn]) fig', Ok tt)
      /\ (fst (on_relayout_completed fn fig')).(effects) = fig'.(effects).
Proof.
  intros fig style trace_indexes fn.
  eexists _, _. split; [run_M; reflexivity|].
  repeat split; run_M; try reflexivity.
  - apply od_get_set_eq.
  - rewrite od_get_set_ne by done. apply od_get_set_eq.
Qed.

(** ** Adding traces in a batch context *)

(** A figure with two scatter traces, used to run the code on. *)
Definition empty_obj (name : string) (p : option parent_ref) : PlotlyObj :=
  {| _name := name; _parent := p; _orphan_props := ∅; _compound_props := ∅;
     _validators := ∅; _subplotid_props := ∅ |}.

Definition sample_figure : Figure :=
  {| _data := [ {[ KStr "uid" := VStr "a"; KStr "type" := VStr "scatter" ]};
                {[ KStr "uid" := VStr "b"; KStr "type" := VStr "scatter" ]} ];
     _data_defaults := [∅; ∅];
     _data_objs := [1%nat; 2%nat];
     _layout := ∅; _layout_defaults := ∅; _layout_obj := 0%nat;
     _last_relayout_msg_id := 0; _last_restyle_msg_id := 0;
     _relayout_in_process := false; _waiting_relayout_callbacks := [];
     _restyle_in_process := false; _waiting_restyle_callbacks := [];
     _in_batch_mode := false;
     _batch_style_commands := []; _batch_layout_commands := [];
     store := fun o => if (o <=? 2)%nat then empty_obj "scatter" (Some FigureRef)
                       else empty_obj "scatter" None;
     effects := [] |}.

(** The same figure inside a batch context, with one style write and one
    layout write pending. *)
Definition sample_batch_figure : Figure :=
  set_batch_layout_commands [("title", VStr "t")]
    (set_batch_style_commands [(0, [("opacity", VInt 1)])]
       (set_in_batch_mode true sample_figure)).

(** C9. Called inside a batch context, [add_traces] raises InvalidInput,
    and has by then emptied both batch accumulators: the style and layout
    writes that were pending are gone, nothing else changed, and leaving
    the batch context afterwards sends no message. *)
Theorem add_traces_in_batch_discards_pending :
  forall (fig : Figure) (coerced : result (list objid)),
    fig.(_in_batch_mode) = true ->
    let fig1 := set_batch_style_commands [] (set_batch_layout_commands [] fig) in
    add_traces coerced fig = (fig1, Raise (ValueError TracesInBatchContext))
    /\ InvalidInput (ValueError TracesInBatchContext)
    /\ fig1.(_batch_style_commands) = []
    /\ fig1.(_batch_layout_commands) = []
    /\ fig1.(effects) = fig.(effects)
    /\ snd (batch_update_exit true fig1) = Ok tt
    /\ (fst (batch_update_exit true fig1)).(effects) = fig.(effects)
    /\ (fst (batch_update_exit true fig1)).(_data) = fig.(_data)
    /\ (fst (batch_update_exit true fig1)).(_layout) = fig.(_layout).
Proof.
  intros fig coerced Hbatch fig1. subst fig1.
  split.
  { unfold add_traces. run_M. by rewrite Hbatch. }
  repeat split; try done.
Qed.

Lemma add_traces_in_batch_discards_pending_witness :
  sample_batch_figure.(_batch_style_commands) <> []
  /\ add_traces (Ok [3%nat]) sample_batch_figure
     = (set_batch_style_commands [] (set_batch_layout_commands [] sample_batch_figure),
        Raise (ValueError TracesInBatchContext)).
Proof.
  split; [done|].
  apply (add_traces_in_batch_discards_pending sample_batch_figure (Ok [3%nat])).
  reflexivity.
Defined.

(** ** Restyling with a dict value *)

Lemma as_list_not_dict v : is_dict (as_list v) = false.
Proof. by destruct v. Qed.

Lemma py_getitem_not_rejection c k e :
  py_getitem c k = Raise e -> e <> ValueError RestylingObjectsNotSupported.
Proof.
  unfold py_getitem. intros H ->.
  repeat case_match; simplify_eq.
Qed.

Lemma cyclic_item_not_rejection v i e :
  cyclic_item v i = Raise e -> e <> ValueError RestylingObjectsNotSupported.
Proof.
  unfold cyclic_item. intros H ->. repeat case_match; simplify_eq.
Qed.

Lemma restyle_path_not_rejection key_path : forall vp tv vp' e,
  (forall e', tv = Raise e' -> e' <> ValueError RestylingObjectsNotSupported) ->
  restyle_path vp key_path tv = (vp', Raise e) ->
  e <> ValueError RestylingObjectsNotSupported.
Proof.
  induction key_path as [|k rest IH]; intros vp tv vp' e Htv H; simpl in H.
  - by simplify_eq.
  - destruct rest as [|next rest'].
    + destruct tv as [x|e'].
      * destruct (restyle_leaf vp k x). simplify_eq.
      * simplify_eq. by apply Htv.
    + destruct (py_getitem _ k) as [child|e'] eqn:Hg.
      * destruct (restyle_path child (next :: rest') tv) as [child' r'] eqn:Hr.
        simplify_eq. by eapply IH.
      * simplify_eq. by eapply py_getitem_not_rejection.
Qed.

Lemma restyle_traces_not_rejection key_path v :
  forall trace_indexes i data vs c data' e,
    restyle_traces key_path v i trace_indexes data vs c = (data', Raise e) ->
    e <> ValueError RestylingObjectsNotSupported.
Proof.
  induction trace_indexes as [|t rest IH]; intros i data vs c data' e H; simpl in H.
  - simplify_eq.
  - case_bool_decide; [by simplify_eq|].
    destruct (py_norm_index _ t) as [n|]; [|by simplify_eq].
    destruct (data !! n) as [d|]; [|by simplify_eq].
    unfold restyle_trace in H.
    destruct (restyle_path (VDict d) key_path (cyclic_item v i)) as [vp r] eqn:Hp.
    destruct (cyclic_item v i) as [tv|e'] eqn:Hc.
    + destruct r as [b|e'].
      * by eapply IH.
      * simplify_eq. eapply restyle_path_not_rejection; [|exact Hp]. by intros.
    + simplify_eq. by eapply cyclic_item_not_rejection.
Qed.

(** The rejection of a dict value is dead code: the value has been wrapped
    in a list by the time it is tested. *)
Lemma restyle_never_rejects_objects style : forall trace_indexes data restyle_data,
  snd (restyle_entries style trace_indexes data restyle_data)
  <> Raise (ValueError RestylingObjectsNotSupported).
Proof.
  induction style as [|[raw_key v] style IH]; intros trace_indexes data rd; simpl.
  - done.
  - destruct (starts_with_underscore raw_key); [apply IH|].
    rewrite as_list_not_dict.
    destruct (restyle_traces _ _ _ _ _ _ _) as [data' [[vs c]|e]] eqn:Ht.
    + apply IH.
    + simpl. intros [= ->]. by eapply restyle_traces_not_rejection.
Qed.

(** C8 (what the code does). Restyling trace 0 with the patch
    [{'marker': {'color': 'red'}}] is not rejected: the dict is stored as
    the value of [marker] and reported in the restyle data. *)
Theorem restyle_dict_value_is_stored :
  let patch : odict := [("marker", VDict {[ KStr "color" := VStr "red" ]})] in
  exists data',
    perform_restyle_data patch [0] sample_figure.(_data)
    = (data', Ok [("marker", VList [VDict {[ KStr "color" := VStr "red" ]}])])
    /\ (data' !! 0%nat) ≫= (fun d => d !! KStr "marker")
       = Some (VDict {[ KStr "color" := VStr "red" ]}).
Proof.
  eexists. split; [vm_compute; reflexivity|]. vm_compute. reflexivity.
Qed.

(** ** Restyle: which value each selected trace receives *)

(** Reading along a key path: [v[k1][k2]...]. *)
Fixpoint path_get (v : value) (key_path : list pkey) : result value :=
  match key_path with
  | [] => Ok v
  | k :: rest =>
      match py_getitem v k with
      | Ok child => path_get child rest
      | Raise e => Raise e
      end
  end.

(** A value that is neither [Undefined] (no-op) nor [None] (removal). *)
Definition plain_value (v : value) : Prop := v <> VUndefined /\ v <> VNone.

Lemma restyle_leaf_str s k tv : (restyle_leaf (VStr s) k tv).1 = VStr s.
Proof.
  unfold restyle_leaf. destruct (_vals_equal tv VUndefined); [done|]. by destruct tv.
Qed.

Lemma restyle_path_step vp k next rest tv :
  restyle_path vp (k :: next :: rest) tv =
  let vpv := restyle_vivify vp k next in
  match py_getitem vpv k with
  | Raise e => (vpv, Raise e)
  | Ok child =>
      let '(child', r) := restyle_path child (next :: rest) tv in
      (py_store_child vpv k child', r)
  end.
Proof. reflexivity. Qed.

(** Nothing reached through a string changes: strings are immutable. *)
Lemma restyle_path_str key_path s tv :
  (restyle_path (VStr s) key_path tv).1 = VStr s.
Proof.
  destruct key_path as [|k [|next rest]]; [done| |].
  - simpl. destruct tv as [x|e]; [|done].
    pose proof (restyle_leaf_str s k x) as H.
    by destruct (restyle_leaf (VStr s) k x).
  - rewrite restyle_path_step. cbn zeta.
    change (restyle_vivify (VStr s) k next) with (VStr s).
    destruct (py_getitem (VStr s) k) as [child|e]; [|done].
    by destruct (restyle_path child (next :: rest) tv).
Qed.

Lemma py_getitem_store_child vp k child child' :
  py_getitem vp k = Ok child ->
  is_list vp || is_dict vp = true ->
  py_getitem (py_store_child vp k child') k = Ok child'.
Proof.
  destruct vp as [| | | |l|m]; try done; intros H _; simpl in *.
  - destruct k as [s|z]; [done|].
    destruct (py_norm_index (length l) z) as [n|] eqn:Hn; [|done].
    destruct (l !! n) eqn:Hl; [|done].
    simpl. rewrite length_insert, Hn.
    rewrite list_lookup_insert_eq; [done|]. by eapply lookup_lt_Some.
  - by rewrite lookup_insert_eq.
Qed.

Lemma restyle_leaf_sets vp k tv vp' c m :
  restyle_leaf vp k tv = (vp', c) -> plain_value tv -> vp' = VDict m ->
  m !! k = Some tv.
Proof.
  unfold restyle_leaf, _vals_equal. intros H [HU HN] ->.
  destruct (value_eqb tv VUndefined) eqn:E; [by apply value_eqb_spec in E|].
  assert (match vp with
          | VDict d =>
              match d !! k with
              | Some old =>
                  if value_eqb old tv then (vp, false)
                  else (VDict (<[k := tv]> d), true)
              | None => (VDict (<[k := tv]> d), true)
              end
          | _ => (vp, false)
          end = (VDict m, c)) as H'.
  { destruct tv; try done; by destruct vp. }
  clear H. destruct vp as [| | | |lvp|d]; simplify_eq.
  destruct (d !! k) as [old|] eqn:Hk.
  - destruct (value_eqb old tv) eqn:Eo; simplify_eq.
    + apply value_eqb_spec in Eo. by subst.
    + by rewrite lookup_insert_eq.
  - simplify_eq. by rewrite lookup_insert_eq.
Qed.

(** After the walk, if the container the last key indexes is a dict, it
    holds the value at that key. *)
Lemma restyle_path_sets key_path : forall vp vp' tv c k m,
  restyle_path vp key_path (Ok tv) = (vp', Ok c) ->
  plain_value tv ->
  last key_path = Some k ->
  path_get vp' (removelast key_path) = Ok (VDict m) ->
  m !! k = Some tv.
Proof.
  induction key_path as [|k0 rest IH]; intros vp vp' tv c k m H Htv Hlast Hget;
    [done|].
  destruct rest as [|next rest'].
  - simpl in *. simplify_eq.
    destruct (restyle_leaf vp k tv) as [vp1 c1] eqn:Hl. simplify_eq.
    by eapply restyle_leaf_sets.
  - change (removelast (k0 :: next :: rest')) with (k0 :: removelast (next :: rest')) in Hget.
    change (last (k0 :: next :: rest')) with (last (next :: rest')) in Hlast.
    rewrite restyle_path_step in H. cbn zeta in H.
    set (vpv := restyle_vivify vp k0 next) in *.
    destruct (py_getitem vpv k0) as [child|e] eqn:Hg; [|by simplify_eq].
    destruct (restyle_path child (next :: rest') (Ok tv)) as [child' r] eqn:Hr.
    simplify_eq. cbn [path_get] in Hget.
    destruct (is_list vpv || is_dict vpv) eqn:Hkind.
    + rewrite (py_getitem_store_child _ _ _ child' Hg Hkind) in Hget.
      by eapply IH.
    + assert (exists s, vpv = VStr s) as [s Hs].
      { destruct vpv; try done; try (by destruct k0); by eexists. }
      rewrite Hs in *. simpl in Hget.
      destruct k0 as [?|z]; [done|]. simpl in Hg.
      destruct (py_norm_index _ z) as [n|]; [|done].
      destruct (String.get n s) as [ch|]; [|done]. simplify_eq.
      pose proof (restyle_path_str (next :: rest') (string_of_ascii ch) (Ok tv)) as Hs'.
      rewrite Hr in Hs'. simpl in Hs'. subst child'.
      by eapply IH.
Qed.

(** ** Key paths *)

Lemma split_on_nonempty sep s : split_on sep s <> [].
Proof.
  destruct s as [|c s]; simpl; [done|].
  destruct (Ascii.eqb c sep); [done|]. by destruct (split_on sep s).
Qed.

(** X1. The key path of a string key is never empty, so that
    [key_path[-1]] is always defined. *)
Theorem str_to_dict_path_nonempty (raw_key : string) :
  _str_to_dict_path raw_key <> [].
Proof.
  unfold _str_to_dict_path.
  pose proof (split_on_nonempty "." raw_key) as H.
  destruct (split_on "." raw_key) as [|key keys]; [done|].
  simpl. by destruct (bracket_re_fullmatch key) as [[g1 g2]|].
Qed.

Lemma split_on_app sep a b :
  split_on sep (a +:+ String sep b) = split_on sep a ++ split_on sep b.
Proof.
  induction a as [|c a IH]; simpl.
  - rewrite Ascii.eqb_refl. done.
  - destruct (Ascii.eqb c sep) eqn:E.
    + simpl. by rewrite IH.
    + rewrite IH. pose proof (split_on_nonempty sep a) as Hne.
      by destruct (split_on sep a).
Qed.

(** X2. Joining two keys with a period concatenates their key paths. *)
Theorem str_to_dict_path_dot (a b : string) :
  _str_to_dict_path (a +:+ "." +:+ b) = _str_to_dict_path a ++ _str_to_dict_path b.
Proof.
  unfold _str_to_dict_path.
  change ("." +:+ b) with (String "."%char b).
  by rewrite split_on_app, flat_map_app, map_app.
Qed.

(** ** Relayout and update messages *)

(** X3. Sending a relayout message increments the relayout counter only,
    writes that id onto the outgoing layout patch, and leaves both
    in-process flags as they were: unlike the restyle and update sends it
    does not mark a relayout as in process. *)
Theorem send_relayout_msg_leaves_flags :
  forall (fig : Figure) (layout : odict),
    exists fig' layout',
      _send_relayout_msg layout fig = (fig', Ok tt)
      /\ fig'.(_last_relayout_msg_id) = fig.(_last_relayout_msg_id) + 1
      /\ fig'.(_last_restyle_msg_id) = fig.(_last_restyle_msg_id)
      /\ fig'.(_relayout_in_process) = fig.(_relayout_in_process)
      /\ fig'.(_restyle_in_process) = fig.(_restyle_in_process)
      /\ fig'.(effects) = fig.(effects) ++ [Py2js_relayout layout']
      /\ od_get "_relayout_msg_id" layout' = Some (VInt (fig.(_last_relayout_msg_id) + 1))
      /\ (forall k, k <> "_relayout_msg_id" -> od_get k layout' = od_get k layout).
Proof.
  intros fig layout. eexists _, _. split; [run_M; reflexivity|].
  repeat split; run_M; try reflexivity.
  - apply od_get_set_eq.
  - intros k Hk. by apply od_get_set_ne.
Qed.

(** X4. Sending an update message increments both counters and sets both
    in-process flags; the style patch carries the restyle id and the
    layout patch the relayout id, and neither carries the other's. *)
Theorem send_update_msg_ids :
  forall (fig : Figure) (style layout : odict) (trace_indexes : list Z),
    exists fig' style' layout',
      _send_update_msg style layout trace_indexes fig = (fig', Ok tt)
      /\ fig'.(_last_restyle_msg_id) = fig.(_last_restyle_msg_id) + 1
      /\ fig'.(_last_relayout_msg_id) = fig.(_last_relayout_msg_id) + 1
      /\ fig'.(_restyle_in_process) = true
      /\ fig'.(_relayout_in_process) = true
      /\ fig'.(effects) = fig.(effects) ++ [Py2js_update style' layout' trace_indexes]
      /\ od_get "_restyle_msg_id" style' = Some (VInt (fig.(_last_restyle_msg_id) + 1))
      /\ od_get "_relayout_msg_id" layout' = Some (VInt (fig.(_last_relayout_msg_id) + 1))
      /\ od_get "_relayout_msg_id" style' = od_get "_relayout_msg_id" style
      /\ od_get "_restyle_msg_id" layout' = od_get "_restyle_msg_id" layout.
Proof.
  intros fig style layout trace_indexes. eexists _, _, _.
  split; [run_M; reflexivity|].
  repeat split; run_M; try reflexivity.
  - apply od_get_set_eq.
  - apply od_get_set_eq.
  - by apply od_get_set_ne.
  - by apply od_get_set_ne.
Qed.

(** ** Relayout of a top-level property *)


Lemma set_data_same (f : Figure) : set_data f.(_data) f = f.
Proof. by destruct f. Qed.





(** ** Property writes of a child: sent at once, or batched *)

(** [BaseFigureWidget._restyle_child]: a trace reports that its property
    [prop] was set to [val]. *)
Definition _restyle_child (child : objid) (prop : string) (val : value) : M unit :=
  f <- get ;;
  trace_index <- lift (match obj_index child f.(_data_objs) with
                       | Some i => Ok (Z.of_nat i)
                       | None => Raise PyValueError
                       end) ;;
  if negb f.(_in_batch_mode) then
    let restyle := [(prop, VList [val])] in
    _dispatch_change_callbacks_restyle restyle [trace_index] ;;
    _send_restyle_msg restyle [trace_index]
  else
    let commands := f.(_batch_style_commands) in
    let commands :=
      match od_get trace_index commands with
      | Some _ => commands
      | None => od_set trace_index [] commands
      end in
    let trace_commands := default [] (od_get trace_index commands) in
    modify (set_batch_style_commands
              (od_set trace_index (od_set prop val trace_commands) commands)).

(** [BaseFigureWidget._relayout_child]. *)
Definition _relayout_child (child : objid) (prop : string) (val : value) : M unit :=
  f <- get ;;
  if negb f.(_in_batch_mode) then
    let relayout_msg := [(prop, val)] in
    _dispatch_change_callbacks_relayout relayout_msg ;;
    _send_relayout_msg relayout_msg
  else
    modify (set_batch_layout_commands (od_set prop val f.(_batch_layout_commands))).

(** The pending style write for a trace index and a property. *)
Definition pending_style (f : Figure) (trace_index : Z) (prop : string) : option value :=
  od_get trace_index f.(_batch_style_commands) ≫= od_get prop.

Lemma od_get_set_eq_Z {V} (k : Z) (v : V) (d : list (Z * V)) :
  od_get k (od_set k v d) = Some v.
Proof.
  induction d as [|[k' v'] d IH]; simpl.
  - by rewrite decide_True.
  - destruct (decide (k = k')) as [->|Hne]; simpl.
    + by rewrite decide_True.
    + by rewrite decide_False.
Qed.

Lemma od_get_set_ne_Z {V} (k k' : Z) (v : V) (d : list (Z * V)) :
  k <> k' -> od_get k (od_set k' v d) = od_get k d.
Proof.
  intros Hne. induction d as [|[k2 v2] d IH]; simpl.
  - by rewrite decide_False.
  - destruct (decide (k' = k2)) as [->|Hne2]; simpl.
    + by rewrite !decide_False.
    + destruct (decide (k = k2)); [done|]. apply IH.
Qed.

(** X6. In batch mode, a property write reported by a trace of the figure
    sends nothing and leaves the mirrors and both message counters as they
    are; it is recorded as the pending write for that trace index and
    property (replacing an earlier one), and every other pending write is
    kept. *)
Theorem restyle_child_in_batch fig child prop val i :
  fig.(_in_batch_mode) = true ->
  obj_index child fig.(_data_objs) = Some i ->
  exists fig',
    _restyle_child child prop val fig = (fig', Ok tt)
    /\ fig'.(effects) = fig.(effects)
    /\ fig'.(_data) = fig.(_data)
    /\ fig'.(_layout) = fig.(_layout)
    /\ fig'.(_last_restyle_msg_id) = fig.(_last_restyle_msg_id)
    /\ fig'.(_last_relayout_msg_id) = fig.(_last_relayout_msg_id)
    /\ fig'.(_batch_layout_commands) = fig.(_batch_layout_commands)
    /\ pending_style fig' (Z.of_nat i) prop = Some val
    /\ (forall j p, (j, p) <> (Z.of_nat i, prop) ->
          pending_style fig' j p = pending_style fig j p).
Proof.
  intros Hbatch Hidx. eexists.
  split.
  { unfold _restyle_child, bind, get, lift, modify.
    rewrite Hidx, Hbatch. cbn. reflexivity. }
  repeat split.
  - unfold pending_style. cbn. rewrite od_get_set_eq_Z. cbn.
    apply od_get_set_eq.
  - intros j p Hne. unfold pending_style. cbn.
    destruct (decide (j = Z.of_nat i)) as [->|Hj].
    + assert (p <> prop) as Hp by congruence.
      rewrite od_get_set_eq_Z. cbn. rewrite od_get_set_ne by done.
      destruct (od_get (Z.of_nat i) (_batch_style_commands fig)) as [tc|] eqn:E; cbn.
      * by rewrite E.
      * by rewrite od_get_set_eq_Z.
    + rewrite od_get_set_ne_Z by done.
      destruct (od_get (Z.of_nat i) (_batch_style_commands fig)); [done|].
      by rewrite od_get_set_ne_Z.
Qed.

Lemma restyle_child_in_batch_witness :
  exists fig',
    _restyle_child 2%nat "opacity" (VInt 1) sample_batch_figure = (fig', Ok tt)
    /\ pending_style fig' 1 "opacity" = Some (VInt 1).
Proof.
  destruct (restyle_child_in_batch sample_batch_figure 2%nat "opacity" (VInt 1) 1%nat)
    as (fig' & H1 & _ & _ & _ & _ & _ & _ & H2 & _).
  - reflexivity.
  - reflexivity.
  - by exists fig'.
Defined.

(** ** Leaving the batch context *)










(** ** Building the update from the batch accumulators *)

Lemma insert_by_perm {A} (le : A -> A -> bool) x l : insert_by le x l ≡ₚ x :: l.
Proof.
  induction l as [|y l IH]; simpl; [done|].
  destruct (le x y); [done|]. rewrite IH. apply Permutation_swap.
Qed.

Lemma sorted_set_perm {A} `{EqDecision A} (le : A -> A -> bool) (l : list A) :
  sorted_set le l ≡ₚ remove_dups l.
Proof.
  unfold sorted_set. induction (remove_dups l) as [|x l' IH]; simpl; [done|].
  by rewrite insert_by_perm, IH.
Qed.

Lemma elem_of_sorted_set {A} `{EqDecision A} (le : A -> A -> bool) (l : list A) x :
  x ∈ sorted_set le l <-> x ∈ l.
Proof. by rewrite sorted_set_perm, elem_of_remove_dups. Qed.

Lemma NoDup_sorted_set {A} `{EqDecision A} (le : A -> A -> bool) (l : list A) :
  NoDup (sorted_set le l).
Proof. rewrite sorted_set_perm. apply NoDup_remove_dups. Qed.

Lemma insert_by_sorted x l :
  StronglySorted Z.le l -> StronglySorted Z.le (insert_by Z.leb x l).
Proof.
  induction 1 as [|y l Hs IH Hall]; simpl.
  - repeat constructor.
  - destruct (Z.leb_spec x y).
    + constructor; [by constructor|]. constructor; [done|].
      eapply Forall_impl; [done|]. cbn. lia.
    + constructor; [done|]. rewrite insert_by_perm. constructor; [lia|done].
Qed.

Lemma sorted_set_sorted l : StronglySorted Z.le (sorted_set Z.leb l).
Proof.
  unfold sorted_set. induction (remove_dups l); simpl; [constructor|].
  by apply insert_by_sorted.
Qed.

(** The loop body and the cells of [_build_update_params_from_batch]. *)
Definition batch_fill (trace_indexes : list Z) (style : result odict)
    (cell : Z * (string * value)) : result odict :=
  match style with
  | Raise e => Raise e
  | Ok st =>
      match Z_index cell.1 trace_indexes, od_get cell.2.1 st with
      | Some i, Some (VList vs) =>
          Ok (od_set cell.2.1 (VList (<[i := cell.2.2]> vs)) st)
      | _, _ => Raise PyValueError
      end
  end.

Definition batch_cells (commands : list (Z * odict)) : list (Z * (string * value)) :=
  flat_map (fun ts => (fun pv => (ts.1, pv)) <$> ts.2) commands.

(** The value last written to a cell by a sequence of cell writes. *)
Definition last_write (j : Z) (p : string) (cs : list (Z * (string * value)))
  : option value :=
  od_get (j, p) (reverse ((fun c => ((c.1, c.2.1), c.2.2)) <$> cs)).

Lemma last_write_snoc j p cs c :
  last_write j p (cs ++ [c])
  = if decide ((j, p) = (c.1, c.2.1)) then Some c.2.2 else last_write j p cs.
Proof.
  unfold last_write. rewrite fmap_app, reverse_app. simpl. done.
Qed.

Lemma Z_index_Some j l i : Z_index j l = Some i -> l !! i = Some j.
Proof.
  unfold Z_index. destruct (list_find _ l) as [[i' y]|] eqn:E; [|done].
  intros [= <-]. apply list_find_Some in E as (H & -> & _). done.
Qed.

Lemma Z_index_elem j l : j ∈ l -> is_Some (Z_index j l).
Proof.
  intros H. unfold Z_index.
  destruct (list_find_elem_of (fun y => y = j) l j H eq_refl) as [[i y] ->].
  by eexists.
Qed.

Lemma od_keys_set_in {V} (k : string) (v : V) d :
  is_Some (od_get k d) -> od_keys (od_set k v d) = od_keys d.
Proof.
  unfold od_keys. induction d as [|[k' v'] d IH]; simpl.
  - by intros [? ?].
  - destruct (decide (k = k')) as [->|]; [done|]. intros H. cbn. f_equal. by apply IH.
Qed.

Lemma od_get_init (props : list string) (x : value) p :
  p ∈ props -> od_get p ((fun q => (q, x)) <$> props) = Some x.
Proof.
  induction props as [|q props IH]; simpl.
  - by intros ?%elem_of_nil.
  - intros [->|H]%elem_of_cons.
    + by rewrite decide_True.
    + destruct (decide (p = q)); [done|]. by apply IH.
Qed.

Section fill.
Variables (tis : list Z) (props : list string).

Definition fill_inv (cs : list (Z * (string * value))) (st : odict) : Prop :=
  od_keys st = props
  /\ forall p, p ∈ props ->
       exists vs, od_get p st = Some (VList vs) /\ length vs = length tis
         /\ forall j i, Z_index j tis = Some i ->
              vs !! i = Some (default VUndefined (last_write j p cs)).

Lemma fill_inv_init :
  fill_inv [] ((fun p => (p, VList (replicate (length tis) VUndefined))) <$> props).
Proof.
  split.
  - unfold od_keys. rewrite <- list_fmap_compose. apply list_fmap_id.
  - intros p Hp. eexists. split; [by apply od_get_init|].
    split; [by rewrite length_replicate|].
    intros j i Hi. cbn. apply lookup_replicate_2.
    apply Z_index_Some in Hi. by apply lookup_lt_Some in Hi.
Qed.

Lemma fill_inv_fold cs :
  (forall c, c ∈ cs -> c.1 ∈ tis /\ c.2.1 ∈ props) ->
  exists st,
    foldl (batch_fill tis)
      (Ok ((fun p => (p, VList (replicate (length tis) VUndefined))) <$> props)) cs
    = Ok st
    /\ fill_inv cs st.
Proof.
  induction cs as [|c cs IH] using rev_ind; intros Hcs.
  - eexists. split; [done|]. apply fill_inv_init.
  - destruct IH as (st & Hst & Hkeys & Hinv).
    { intros c' Hc'. apply Hcs. apply elem_of_app. by left. }
    destruct (Hcs c) as [Hj Hp].
    { apply elem_of_app. right. by apply list_elem_of_singleton. }
    destruct c as [j0 [p0 v0]]. cbn in Hj, Hp.
    destruct (Z_index_elem _ _ Hj) as [i0 Hi0].
    destruct (Hinv p0 Hp) as (vs0 & Hget0 & Hlen0 & Hvs0).
    rewrite foldl_app, Hst. cbn. rewrite Hi0, Hget0.
    eexists. split; [done|]. split.
    + rewrite od_keys_set_in; [done|by eexists].
    + intros p Hpp. destruct (decide (p = p0)) as [->|Hne].
      * eexists. split; [apply od_get_set_eq|].
        split; [by rewrite length_insert|].
        intros j i Hi. rewrite last_write_snoc. cbn.
        destruct (decide (j = j0)) as [->|Hj0].
        -- rewrite decide_True by done. cbn.
           assert (i = i0) as -> by congruence.
           apply list_lookup_insert_eq.
           apply Z_index_Some in Hi0. apply lookup_lt_Some in Hi0. lia.
        -- rewrite decide_False by congruence.
           rewrite list_lookup_insert_ne; [by apply Hvs0|].
           intros ->. apply Z_index_Some in Hi, Hi0. congruence.
      * destruct (Hinv p Hpp) as (vs & Hget & Hlen & Hvs).
        exists vs. rewrite od_get_set_ne by done. split; [done|]. split; [done|].
        intros j i Hi. rewrite last_write_snoc. cbn.
        rewrite decide_False by congruence. by apply Hvs.
Qed.

End fill.

Lemma batch_cells_elem (commands : list (Z * odict)) c :
  c ∈ batch_cells commands ->
  c.1 ∈ od_keys commands
  /\ c.2.1 ∈ flat_map (fun ts : Z * odict => od_keys ts.2) commands.
Proof.
  unfold batch_cells. intros (ts & Hc & Hts)%list_elem_of_In%in_flat_map.
  apply list_elem_of_In in Hc, Hts.
  apply list_elem_of_fmap in Hts as (pv & -> & Hpv). cbn. split.
  - unfold od_keys. apply list_elem_of_fmap. by exists ts.
  - apply list_elem_of_In, in_flat_map. exists ts.
    split; [by apply list_elem_of_In|].
    apply list_elem_of_In. unfold od_keys. apply list_elem_of_fmap. by exists pv.
Qed.

Lemma build_update_params_from_batch_spec f :
  let tis := sorted_set Z.leb (od_keys f.(_batch_style_commands)) in
  let props :=
    sorted_set String.leb
      (flat_map (fun ts : Z * odict => od_keys ts.2) f.(_batch_style_commands)) in
  exists style,
    _build_update_params_from_batch f = Ok (style, f.(_batch_layout_commands), tis)
    /\ fill_inv tis props (batch_cells f.(_batch_style_commands)) style.
Proof.
  intros tis props.
  destruct (fill_inv_fold tis props (batch_cells f.(_batch_style_commands)))
    as (st & Hst & Hinv).
  { intros c [H1 H2]%batch_cells_elem. split; by apply elem_of_sorted_set. }
  exists st. split; [|done].
  unfold _build_update_params_from_batch.
  change (foldl _ _ _) with
    (foldl (batch_fill tis)
       (Ok ((fun p => (p, VList (replicate (length tis) VUndefined))) <$> props))
       (batch_cells f.(_batch_style_commands))).
  by rewrite Hst.
Qed.

(** X8. Building the update from the batch accumulators never fails.  The
    trace indexes it returns are the indexes with pending style writes, in
    ascending order and without repetition; the layout patch is the pending
    layout writes; the style patch has one column for each property written
    on some trace, and every column has one entry for each returned trace
    index. *)
Theorem build_update_params_from_batch_shape f :
  exists style trace_indexes,
    _build_update_params_from_batch f
    = Ok (style, f.(_batch_layout_commands), trace_indexes)
    /\ StronglySorted Z.le trace_indexes
    /\ NoDup trace_indexes
    /\ (forall j, j ∈ trace_indexes <-> j ∈ od_keys f.(_batch_style_commands))
    /\ (forall p, p ∈ od_keys style
                  <-> exists ts, ts ∈ f.(_batch_style_commands) /\ p ∈ od_keys ts.2)
    /\ (forall p, p ∈ od_keys style ->
          exists vs, od_get p style = Some (VList vs)
                     /\ length vs = length trace_indexes).
Proof.
  destruct (build_update_params_from_batch_spec f) as (style & Hb & Hkeys & Hinv).
  eexists style, _. split; [exact Hb|]. split_and!.
  - apply sorted_set_sorted.
  - apply NoDup_sorted_set.
  - intros j. apply elem_of_sorted_set.
  - intros p. rewrite Hkeys, elem_of_sorted_set.
    rewrite list_elem_of_In, in_flat_map. split.
    + intros (ts & H1 & H2). exists ts. by rewrite !list_elem_of_In.
    + intros (ts & H1 & H2). exists ts. by rewrite <- !list_elem_of_In.
  - intros p Hp. rewrite Hkeys in Hp.
    destruct (Hinv p Hp) as (vs & H1 & H2 & _). by exists vs.
Qed.

Section od_facts.
Context {K V : Type} `{EqDecision K}.

Lemma od_get_None (k : K) (d : list (K * V)) : od_get k d = None <-> k ∉ d.*1.
Proof.
  induction d as [|[k' v'] d IH]; simpl.
  - split; [intros _; apply not_elem_of_nil|done].
  - rewrite not_elem_of_cons. destruct (decide (k = k')) as [->|Hne].
    + split; [done|]. by intros [? _].
    + rewrite IH. tauto.
Qed.

Lemma od_get_Some_elem (k : K) (v : V) (d : list (K * V)) :
  NoDup d.*1 -> od_get k d = Some v <-> (k, v) ∈ d.
Proof.
  induction d as [|[k' v'] d IH]; simpl.
  - intros _. split; [done|]. by intros ?%elem_of_nil.
  - intros [Hk' Hd]%NoDup_cons. rewrite elem_of_cons.
    destruct (decide (k = k')) as [->|Hne].
    + split.
      * intros [= ->]. by left.
      * intros [[= ->]|Hin]; [done|]. exfalso. apply Hk'.
        apply list_elem_of_fmap. by exists (k', v).
    + rewrite (IH Hd). split; [by right|]. intros [[= -> ->]|?]; done.
Qed.

Lemma od_get_reverse (k : K) (d : list (K * V)) :
  NoDup d.*1 -> od_get k (reverse d) = od_get k d.
Proof.
  intros Hd. apply option_eq. intros v.
  rewrite !od_get_Some_elem; [by rewrite elem_of_reverse|done|].
  by rewrite fmap_reverse, reverse_Permutation.
Qed.

Lemma od_get_app (k : K) (d1 d2 : list (K * V)) :
  od_get k (d1 ++ d2)
  = match od_get k d1 with Some v => Some v | None => od_get k d2 end.
Proof.
  induction d1 as [|[k' v'] d1 IH]; simpl; [done|].
  by destruct (decide (k = k')).
Qed.

End od_facts.

Definition cell_key (c : Z * (string * value)) : (Z * string) * value :=
  ((c.1, c.2.1), c.2.2).

Lemma od_get_row (j j0 : Z) (p : string) (ts : odict) :
  od_get (j, p) (cell_key <$> ((fun pv => (j0, pv)) <$> ts))
  = if decide (j = j0) then od_get p ts else None.
Proof.
  induction ts as [|[q v] ts IH]; csimpl.
  - by destruct (decide (j = j0)).
  - rewrite IH. destruct (decide (j = j0)) as [->|Hne].
    + destruct (decide (p = q)) as [->|Hq].
      * by rewrite decide_True.
      * rewrite decide_False; [done|congruence].
    + rewrite decide_False; [done|congruence].
Qed.

Lemma od_get_cells (j : Z) (p : string) (commands : list (Z * odict)) :
  NoDup (od_keys commands) ->
  od_get (j, p) (cell_key <$> batch_cells commands)
  = od_get j commands ≫= od_get p.
Proof.
  unfold batch_cells, od_keys.
  induction commands as [|[j0 ts] commands IH]; simpl; [done|].
  intros [Hj0 Hd]%NoDup_cons.
  rewrite fmap_app, od_get_app, od_get_row. cbn.
  destruct (decide (j = j0)) as [->|Hne]; [|by apply IH].
  destruct (od_get p ts) eqn:E; [done|]. cbn.
  rewrite (IH Hd). apply od_get_None in Hj0. by rewrite Hj0.
Qed.

Lemma cells_keys (commands : list (Z * odict)) :
  (cell_key <$> batch_cells commands).*1
  = flat_map (fun ts : Z * odict => (fun q => (ts.1, q)) <$> od_keys ts.2) commands.
Proof.
  unfold batch_cells, od_keys.
  induction commands as [|[j0 ts] commands IH]; simpl; [done|].
  rewrite !fmap_app, IH. f_equal.
  rewrite <- !list_fmap_compose. by apply list_fmap_ext.
Qed.

Lemma NoDup_cells (commands : list (Z * odict)) :
  NoDup (od_keys commands) ->
  (forall ts, ts ∈ commands -> NoDup (od_keys ts.2)) ->
  NoDup (cell_key <$> batch_cells commands).*1.
Proof.
  rewrite cells_keys. unfold od_keys.
  induction commands as [|[j0 ts] commands IH]; simpl; [constructor|].
  intros [Hj0 Hd]%NoDup_cons Hrows.
  apply NoDup_app. split_and!.
  - apply (NoDup_fmap_2 _). apply (Hrows (j0, ts)). by left.
  - intros [j q] (q' & [= -> ->] & _)%list_elem_of_fmap
      (ts' & Hts' & (q'' & [= Hj ->] & _)%list_elem_of_In%list_elem_of_fmap)%list_elem_of_In%in_flat_map.
    apply Hj0. apply list_elem_of_fmap. exists ts'.
    split; [done|]. by apply list_elem_of_In.
  - apply IH; [done|]. intros ts' Hts'. apply Hrows. by right.
Qed.

Lemma last_write_pending f j p :
  NoDup (od_keys f.(_batch_style_commands)) ->
  (forall ts, ts ∈ f.(_batch_style_commands) -> NoDup (od_keys ts.2)) ->
  last_write j p (batch_cells f.(_batch_style_commands)) = pending_style f j p.
Proof.
  intros H1 H2. unfold last_write, pending_style.
  change (fun c : Z * (string * value) => (c.1, c.2.1, c.2.2)) with cell_key.
  rewrite od_get_reverse by by apply NoDup_cells.
  by apply od_get_cells.
Qed.

(** X9. Every pending style write reaches the style patch built from the
    batch accumulators: the column of a property holds, at the position of
    a trace index among the returned trace indexes, the value pending for
    that trace and property, and [Undefined] where none is pending. *)
Theorem build_update_params_from_batch_cells f j p :
  NoDup (od_keys f.(_batch_style_commands)) ->
  (forall ts, ts ∈ f.(_batch_style_commands) -> NoDup (od_keys ts.2)) ->
  j ∈ od_keys f.(_batch_style_commands) ->
  (exists ts, ts ∈ f.(_batch_style_commands) /\ p ∈ od_keys ts.2) ->
  exists style trace_indexes i vs,
    _build_update_params_from_batch f
    = Ok (style, f.(_batch_layout_commands), trace_indexes)
    /\ Z_index j trace_indexes = Some i
    /\ od_get p style = Some (VList vs)
    /\ vs !! i = Some (default VUndefined (pending_style f j p)).
Proof.
  intros Hd Hrows Hj (ts & Hts & Hp).
  destruct (build_update_params_from_batch_spec f) as (style & Hb & Hkeys & Hinv).
  destruct (Z_index_elem j (sorted_set Z.leb (od_keys f.(_batch_style_commands))))
    as [i Hi]; [by apply elem_of_sorted_set|].
  destruct (Hinv p) as (vs & Hget & _ & Hvs).
  { apply elem_of_sorted_set, list_elem_of_In, in_flat_map.
    exists ts. by rewrite <- !list_elem_of_In. }
  exists style, (sorted_set Z.leb (od_keys f.(_batch_style_commands))), i, vs.
  split_and!; try done.
  rewrite (Hvs j i Hi). by rewrite last_write_pending.
Qed.

Lemma build_update_params_from_batch_cells_witness :
  exists style trace_indexes i vs,
    _build_update_params_from_batch sample_batch_figure
    = Ok (style, [("title", VStr "t")], trace_indexes)
    /\ Z_index 0 trace_indexes = Some i
    /\ od_get "opacity" style = Some (VList vs)
    /\ vs !! i = Some (VInt 1).
Proof.
  apply (build_update_params_from_batch_cells sample_batch_figure 0 "opacity").
  - cbn. apply NoDup_singleton.
  - intros ts ->%list_elem_of_singleton. cbn. apply NoDup_singleton.
  - by apply list_elem_of_singleton.
  - eexists. split; [by apply list_elem_of_singleton|]. by apply list_elem_of_singleton.
Defined.
